(** * PaddleVision: the landmark-to-control pipeline of ControlDeck

    A shallow embedding of the PaddleVision adapter, its processor pipeline,
    the Calibrate / Smooth / FlickDetect processors and two derivers, with
    the properties stated about them.

    JavaScript numbers are embedded as exact rationals extended with NaN and
    the two infinities ([num]).  Rounding, overflow and the sign of zero are
    not represented: every finite result is the exact rational one, and a
    zero divisor is taken to be +0. *)

From Stdlib Require Import QArith Qabs Qminmax Lqa Lia.
From stdpp Require Import base option list strings gmap fin_maps.

Local Open Scope string_scope.
Local Open Scope list_scope.
Local Open Scope Q_scope.

(** ** JavaScript numbers *)

Module JS.

Inductive num : Type :=
| Fin (q : Q)
| PInf
| NInf
| NaN.

Definition Qltb (a b : Q) : bool :=
  match a ?= b with Lt => true | _ => false end.

Definition is_zero (q : Q) : bool := Qeq_bool q 0.

(** Unary minus. *)
Definition neg (a : num) : num :=
  match a with
  | Fin q => Fin (- q)
  | PInf => NInf
  | NInf => PInf
  | NaN => NaN
  end.

(** [a + b]. *)
Definition add (a b : num) : num :=
  match a, b with
  | NaN, _ | _, NaN => NaN
  | Fin x, Fin y => Fin (x + y)
  | PInf, NInf | NInf, PInf => NaN
  | PInf, _ | _, PInf => PInf
  | NInf, _ | _, NInf => NInf
  end.

(** [a - b]. *)
Definition sub (a b : num) : num := add a (neg b).

(** The infinity carrying the sign of [x * y], for an infinite product. *)
Definition inf_of_sign (positive : bool) : num := if positive then PInf else NInf.

(** [a * b]. *)
Definition mul (a b : num) : num :=
  match a, b with
  | NaN, _ | _, NaN => NaN
  | Fin x, Fin y => Fin (x * y)
  | Fin x, PInf | PInf, Fin x =>
      if is_zero x then NaN else inf_of_sign (Qltb 0 x)
  | Fin x, NInf | NInf, Fin x =>
      if is_zero x then NaN else inf_of_sign (Qltb x 0)
  | PInf, PInf | NInf, NInf => PInf
  | PInf, NInf | NInf, PInf => NInf
  end.

(** [a / b]; a finite zero divisor counts as +0. *)
Definition div (a b : num) : num :=
  match a, b with
  | NaN, _ | _, NaN => NaN
  | Fin x, Fin y =>
      if is_zero y
      then (if Qltb 0 x then PInf else if Qltb x 0 then NInf else NaN)
      else Fin (x / y)
  | Fin _, (PInf | NInf) => Fin 0
  | (PInf | NInf), (PInf | NInf) => NaN
  | PInf, Fin y => inf_of_sign (negb (Qltb y 0))
  | NInf, Fin y => inf_of_sign (Qltb y 0)
  end.

(** [a < b]; any comparison with NaN is false. *)
Definition ltb (a b : num) : bool :=
  match a, b with
  | NaN, _ | _, NaN => false
  | Fin x, Fin y => Qltb x y
  | NInf, (Fin _ | PInf) => true
  | Fin _, PInf => true
  | _, _ => false
  end.

(** [a > b]. *)
Definition gtb (a b : num) : bool := ltb b a.

(** [Math.abs]. *)
Definition Math_abs (a : num) : num :=
  match a with
  | Fin q => Fin (Qabs q)
  | PInf | NInf => PInf
  | NaN => NaN
  end.

(** [Math.max] of two arguments: NaN as soon as one argument is NaN. *)
Definition Math_max (a b : num) : num :=
  match a, b with
  | NaN, _ | _, NaN => NaN
  | _, _ => if ltb a b then b else a
  end.

(** [Math.min] of two arguments. *)
Definition Math_min (a b : num) : num :=
  match a, b with
  | NaN, _ | _, NaN => NaN
  | _, _ => if ltb b a then b else a
  end.

(** [Math.sign]. *)
Definition Math_sign (a : num) : num :=
  match a with
  | Fin q => if Qltb 0 q then Fin 1 else if Qltb q 0 then Fin (-1) else Fin 0
  | PInf => Fin 1
  | NInf => Fin (-1)
  | NaN => NaN
  end.

(** Truthiness of a number: 0 and NaN are falsy. *)
Definition truthy (a : num) : bool :=
  match a with
  | Fin q => negb (is_zero q)
  | PInf | NInf => true
  | NaN => false
  end.

(** [x || d] where [x] is a number or [undefined] ([None]). *)
Definition or_else (x : option num) (d : num) : num :=
  match x with
  | Some v => if truthy v then v else d
  | None => d
  end.

(** [x ?? d] where [x] is a value or [undefined] ([None]). *)
Definition nullish {A} (x : option A) (d : A) : A :=
  match x with
  | Some v => v
  | None => d
  end.

(** Equality of numbers up to the representation of the rational. *)
Definition num_eq (a b : num) : Prop :=
  match a, b with
  | Fin x, Fin y => x == y
  | PInf, PInf | NInf, NInf | NaN, NaN => True
  | _, _ => False
  end.

(** A finite number within the closed interval [lo, hi]. *)
Definition within (lo hi : Q) (a : num) : Prop :=
  match a with
  | Fin q => lo <= q <= hi
  | _ => False
  end.

End JS.

Import JS.

Infix "≈" := num_eq (at level 70, no associativity).


(** ** Data model *)

(** A landmark: [{x, y, z}], [z] possibly missing. *)
Module Point.
Record t : Type := mk { x : num; y : num; z : option num }.
End Point.

(** A value held in a context sub-map: a number, or an object of numeric
    components such as [{x, y}]. *)
Inductive value : Type :=
| VNum (n : num)
| VObj (fields : gmap string num).

(** ToNumber of a value: a plain object converts to NaN. *)
Definition to_number (v : value) : num :=
  match v with
  | VNum n => n
  | VObj _ => NaN
  end.

(** ToNumber of a possibly [undefined] number: [undefined] converts to NaN. *)
Definition undef_to_number (o : option num) : num := default NaN o.

(** [v[k]]: a property of an object, [undefined] on a number. *)
Definition get_prop (v : value) (k : string) : option num :=
  match v with
  | VObj m => m !! k
  | VNum _ => None
  end.

Definition value_truthy (v : value) : bool :=
  match v with
  | VNum n => truthy n
  | VObj _ => true
  end.

(** Truthiness of an optional string: [undefined] and the empty string are falsy. *)
Definition string_truthy (o : option string) : bool :=
  match o with
  | Some s => negb (String.eqb s "")
  | None => false
  end.

(** A landmark frame as the source delivers it ([stats] is opaque and left out). *)
Record Frame : Type := {
  landmarks : option (list Point.t);
  timestamp : num
}.

(** [gestures.flick]. *)
Record Flick : Type := {
  amount : num;
  direction : num;
  velocity : num
}.

(** *** Calibration profile *)

Record RefPoint : Type := {
  rawRotation : option num;
  variance : option num
}.

Record Reference : Type := {
  center : option RefPoint;
  supinate : option RefPoint;
  pronate : option RefPoint
}.

Record Sensitivity : Type := {
  sens_left : num;
  sens_right : num
}.

Record Smoothing : Type := {
  smoothing_factor : num;
  smoothing_deadzone : num
}.

Record Tuning : Type := {
  sensitivity : option Sensitivity;
  reverse : bool;
  smoothing : option Smoothing
}.

(** Top-level properties of a profile other than [reference] and [tuning]
    are kept as uninterpreted JSON text. *)
Record Calibration : Type := {
  reference : option Reference;
  tuning : option Tuning;
  cal_extra : gmap string string
}.

(** The three reference points of [captureReferencePoint]. *)
Inductive RefName : Type := Center | Supinate | Pronate.

#[global]
Instance RefName_eq_dec : EqDecision RefName.
Proof. solve_decision. Defined.

Definition ref_get (r : Reference) (point : RefName) : option RefPoint :=
  match point with
  | Center => center r
  | Supinate => supinate r
  | Pronate => pronate r
  end.

(** [reference[point] = rec]. *)
Definition ref_set (r : Reference) (point : RefName) (rec : RefPoint) : Reference :=
  match point with
  | Center => {| center := Some rec; supinate := supinate r; pronate := pronate r |}
  | Supinate => {| center := center r; supinate := Some rec; pronate := pronate r |}
  | Pronate => {| center := center r; supinate := supinate r; pronate := Some rec |}
  end.

(** The empty object [{}] as a reference. *)
Definition empty_reference : Reference :=
  {| center := None; supinate := None; pronate := None |}.

(** *** Processing context *)

Record Context : Type := {
  ctx_raw : Frame;
  ctx_derived : gmap string value;
  ctx_calibrated : gmap string value;
  ctx_smoothed : gmap string value;
  ctx_gestures : gmap string Flick;
  ctx_outputs : gmap string num;
  ctx_meta : gmap string num;
  ctx_calibration : option Calibration
}.

(** [{...context, calibrated}] and its siblings. *)
Definition with_calibrated (context : Context) (calibrated : gmap string value) : Context :=
  {| ctx_raw := ctx_raw context; ctx_derived := ctx_derived context;
     ctx_calibrated := calibrated; ctx_smoothed := ctx_smoothed context;
     ctx_gestures := ctx_gestures context; ctx_outputs := ctx_outputs context;
     ctx_meta := ctx_meta context; ctx_calibration := ctx_calibration context |}.

Definition with_smoothed (context : Context) (smoothed : gmap string value) : Context :=
  {| ctx_raw := ctx_raw context; ctx_derived := ctx_derived context;
     ctx_calibrated := ctx_calibrated context; ctx_smoothed := smoothed;
     ctx_gestures := ctx_gestures context; ctx_outputs := ctx_outputs context;
     ctx_meta := ctx_meta context; ctx_calibration := ctx_calibration context |}.

Definition with_gestures (context : Context) (gestures : gmap string Flick) : Context :=
  {| ctx_raw := ctx_raw context; ctx_derived := ctx_derived context;
     ctx_calibrated := ctx_calibrated context; ctx_smoothed := ctx_smoothed context;
     ctx_gestures := gestures; ctx_outputs := ctx_outputs context;
     ctx_meta := ctx_meta context; ctx_calibration := ctx_calibration context |}.

Definition with_outputs (context : Context) (outputs : gmap string num) : Context :=
  {| ctx_raw := ctx_raw context; ctx_derived := ctx_derived context;
     ctx_calibrated := ctx_calibrated context; ctx_smoothed := ctx_smoothed context;
     ctx_gestures := ctx_gestures context; ctx_outputs := outputs;
     ctx_meta := ctx_meta context; ctx_calibration := ctx_calibration context |}.

(** *** Schema *)

Record Range : Type := {
  input : num * num;
  output : num * num
}.

(** An entry of [schema.outputs]. *)
Record OutputConfig : Type := {
  source : string;
  component : option string;
  range : option Range;
  invert : bool;
  topic : option string;
  calibrated : option bool
}.

(** [normalize: {min, max, outputMax}] of a deriver. *)
Record Normalize : Type := {
  norm_min : num;
  norm_max : num;
  outputMax : option num
}.

(** The parts of a schema read by the code below: landmark name to index,
    the output table in [Object.keys] order, the default calibration. *)
Record Schema : Type := {
  schema_landmarks : gmap string nat;
  schema_outputs : option (list (string * OutputConfig));
  schema_calibration : option Calibration
}.

(** ** Derivation library (DERIVATION_TYPES) *)

(** A deriver that dereferences [undefined] throws a TypeError: [None]. *)

(** [landmarks[schema.landmarks[name].index]]: throws when the schema has no
    such landmark name, yields [undefined] ([Some None]) past the array's end. *)
Definition landmark_at (landmarks : list Point.t) (schema : Schema) (name : string)
  : option (option Point.t) :=
  index ← schema_landmarks schema !! name;
  Some (landmarks !! index).

Record TriangleAreaConfig : Type := {
  points : list string;
  area_normalize : option Normalize
}.

Record DistanceConfig : Type := {
  dist_from : string;
  dist_to : string;
  dist_normalize : option Normalize
}.

(** [DERIVATION_TYPES.triangleArea]. *)
Definition triangleArea (landmarks : list Point.t) (config : TriangleAreaConfig)
    (schema : Schema) : option num :=
  pts ← mapM (landmark_at landmarks schema) (points config);
  a ← mjoin (pts !! 0%nat);
  b ← mjoin (pts !! 1%nat);
  c ← mjoin (pts !! 2%nat);
  let ax := sub (Point.x b) (Point.x a) in
  let ay := sub (Point.y b) (Point.y a) in
  let bx := sub (Point.x c) (Point.x a) in
  let by_ := sub (Point.y c) (Point.y a) in
  let raw := div (Math_abs (sub (mul ax by_) (mul ay bx))) (Fin 2) in
  match area_normalize config with
  | Some normalize =>
      let min := norm_min normalize in
      let max := norm_max normalize in
      let outputMax := or_else (outputMax normalize) (Fin 1) in
      Some (Math_min outputMax (mul (div (sub raw min) (sub max min)) outputMax))
  | None => Some raw
  end.

Section Distance.

(** [Math.sqrt], the host's. *)
Variable Math_sqrt : num -> num.

(** [DERIVATION_TYPES.distance]. *)
Definition distance (landmarks : list Point.t) (config : DistanceConfig)
    (schema : Schema) : option num :=
  from ← mjoin (landmark_at landmarks schema (dist_from config));
  to ← mjoin (landmark_at landmarks schema (dist_to config));
  let dx := sub (Point.x to) (Point.x from) in
  let dy := sub (Point.y to) (Point.y from) in
  let dz := sub (or_else (Point.z to) (Fin 0)) (or_else (Point.z from) (Fin 0)) in
  let raw := Math_sqrt (add (add (mul dx dx) (mul dy dy)) (mul dz dz)) in
  match dist_normalize config with
  | Some normalize =>
      let min := norm_min normalize in
      let max := norm_max normalize in
      let outputMax := or_else (outputMax normalize) (Fin 1) in
      Some (Math_min outputMax
              (Math_max (Fin 0) (mul (div (sub raw min) (sub max min)) outputMax)))
  | None => Some raw
  end.

End Distance.

(** ** Processors *)

(** What a call of [process] does: it returns a context or throws. *)
Inductive outcome : Type :=
| Returned (context : Context)
| Thrown.

(** A processor object: its class name, its private [_state] (an object of
    numbers) and its [process] method.  A call of [process] reads the context
    it is handed and the processor's own state; it leaves a new state, also
    when it throws, and touches nothing else. *)
Record Processor : Type := {
  proc_name : string;
  proc_state : gmap string num;
  proc_process : gmap string num -> Context -> outcome * gmap string num
}.

Definition set_state (p : Processor) (st : gmap string num) : Processor :=
  {| proc_name := proc_name p; proc_state := st; proc_process := proc_process p |}.

(** [this._state.k] read as a number. *)
Definition state_get (st : gmap string num) (k : string) : num :=
  undef_to_number (st !! k).

(** *** CalibrateProcessor *)

(** [CalibrateProcessor.process]. *)
Definition CalibrateProcessor_process (schema : Schema) (context : Context) : Context :=
  let derived := ctx_derived context in
  let calibration : option Calibration :=
    match ctx_calibration context with
    | Some c => Some c
    | None => schema_calibration schema
    end in
  let reference : option Reference := calibration ≫= reference in
  let tuning : option Tuning := calibration ≫= tuning in
  let calibrated := derived in
  let calibrated :=
    match derived !! "hand-rotation", reference ≫= center with
    | Some hand_rotation, Some ref_center =>
        let raw := to_number hand_rotation in
        let thetaRange :=
          sub (or_else ((reference ≫= pronate) ≫= rawRotation) (Fin 0.52))
              (or_else ((reference ≫= supinate) ≫= rawRotation) (Fin (-0.52))) in
        let normalized :=
          div (sub raw (or_else (rawRotation ref_center) (Fin 0)))
              (div thetaRange (Fin 2)) in
        let sensitivity :=
          default {| sens_left := Fin 1; sens_right := Fin 1 |}
                  (tuning ≫= sensitivity) in
        let normalized :=
          if ltb normalized (Fin 0)
          then mul normalized (sens_left sensitivity)
          else mul normalized (sens_right sensitivity) in
        let normalized := Math_max (Fin (-1)) (Math_min (Fin 1) normalized) in
        let normalized :=
          if default false (reverse <$> tuning) then neg normalized else normalized in
        <["hand-rotation-calibrated" := VNum normalized]> calibrated
    | _, _ => calibrated
    end in
  let calibrated :=
    match derived !! "hand-center" with
    | Some hand_center =>
        if value_truthy hand_center
        then <["hand-center-calibrated" :=
                 VObj {[ "x" := mul (sub (undef_to_number (get_prop hand_center "x"))
                                         (Fin 0.5)) (Fin 2);
                         "y" := mul (sub (undef_to_number (get_prop hand_center "y"))
                                         (Fin 0.5)) (Fin 2) ]}]> calibrated
        else calibrated
    | None => calibrated
    end in
  with_calibrated context calibrated.

Definition CalibrateProcessor (schema : Schema) : Processor :=
  {| proc_name := "CalibrateProcessor";
     proc_state := ∅;
     proc_process := fun st context =>
       (Returned (CalibrateProcessor_process schema context), st) |}.

(** *** SmoothProcessor *)

Record SmoothConfig : Type := {
  factor : option num;
  deadzone : option num
}.

(** The closure [smooth] of [SmoothProcessor.process]. *)
Definition smooth (factor deadzone : num) (current target : num) : num :=
  let delta := sub target current in
  if ltb (Math_abs delta) deadzone
  then current
  else add current (mul delta (sub (Fin 1) factor)).

(** [SmoothProcessor.process]: the returned context and the updated [_state]. *)
Definition SmoothProcessor_process (config : SmoothConfig) (_state : gmap string num)
    (context : Context) : Context * gmap string num :=
  let calibrated := ctx_calibrated context in
  let factor := nullish (factor config) (Fin 0.3) in
  let deadzone := nullish (deadzone config) (Fin 0.02) in
  let smooth := smooth factor deadzone in
  let origin := VObj {[ "x" := Fin 0; "y" := Fin 0 ]} in
  let center :=
    match calibrated !! "hand-center-calibrated" with
    | Some v => if value_truthy v then v else origin
    | None => origin
    end in
  let theta := nullish (to_number <$> calibrated !! "hand-rotation-calibrated") (Fin 0) in
  let spread := nullish (to_number <$> ctx_derived context !! "finger-spread") (Fin 0) in
  let _state := <["x" := smooth (state_get _state "x")
                           (undef_to_number (get_prop center "x"))]> _state in
  let _state := <["y" := smooth (state_get _state "y")
                           (undef_to_number (get_prop center "y"))]> _state in
  let _state := <["theta" := smooth (state_get _state "theta") theta]> _state in
  let _state := <["spread" := smooth (state_get _state "spread") spread]> _state in
  (with_smoothed context (VNum <$> _state), _state).

(** The state a SmoothProcessor is constructed with and reset to. *)
Definition smooth_initial_state : gmap string num :=
  {[ "x" := Fin 0; "y" := Fin 0; "theta" := Fin 0; "spread" := Fin 0 ]}.

Definition SmoothProcessor (config : SmoothConfig) : Processor :=
  {| proc_name := "SmoothProcessor";
     proc_state := smooth_initial_state;
     proc_process := fun st context =>
       let '(context', st') := SmoothProcessor_process config st context in
       (Returned context', st') |}.

(** *** FlickDetectProcessor *)

Record FlickConfig : Type := {
  decay : option num;
  threshold : option num
}.

(** [FlickDetectProcessor.process]. *)
Definition FlickDetectProcessor_process (config : FlickConfig) (_state : gmap string num)
    (context : Context) : Context * gmap string num :=
  let smoothed := ctx_smoothed context in
  let theta := nullish (to_number <$> smoothed !! "theta") (Fin 0) in
  let decay := nullish (decay config) (Fin 0.85) in
  let threshold := nullish (threshold config) (Fin 0.15) in
  let velocity := sub theta (state_get _state "lastTheta") in
  let _state := <["lastTheta" := theta]> _state in
  let _state := <["velocity" := add (mul (state_get _state "velocity") decay) velocity]> _state in
  let amount := Math_min (Fin 1) (div (Math_abs (state_get _state "velocity")) threshold) in
  let direction := Math_sign (state_get _state "velocity") in
  (with_gestures context
     (<["flick" := {| amount := amount; direction := direction;
                      velocity := state_get _state "velocity" |}]> (ctx_gestures context)),
   _state).

Definition FlickDetectProcessor (config : FlickConfig) : Processor :=
  {| proc_name := "FlickDetectProcessor";
     proc_state := {[ "lastTheta" := Fin 0; "velocity" := Fin 0 ]};
     proc_process := fun st context =>
       let '(context', st') := FlickDetectProcessor_process config st context in
       (Returned context', st') |}.

(** The abstract base class: [process] throws "must be implemented". *)
Definition BaseProcessor : Processor :=
  {| proc_name := "Processor";
     proc_state := ∅;
     proc_process := fun st _ => (Thrown, st) |}.

(** ** ProcessorPipeline *)

(** One call [processor.process(context)] made by the pipeline: the
    processor's name, the context handed to it and what the call did. *)
Record ProcessCall : Type := {
  call_name : string;
  call_context : Context;
  call_outcome : outcome
}.

(** The context [ProcessorPipeline.process] starts from. *)
Definition initial_context (schema : Schema) (input : Frame)
    (calibration : option Calibration) : Context :=
  {| ctx_raw := input;
     ctx_derived := ∅;
     ctx_calibrated := ∅;
     ctx_smoothed := ∅;
     ctx_gestures := ∅;
     ctx_outputs := ∅;
     ctx_meta := ∅;
     ctx_calibration :=
       match calibration with
       | Some c => Some c
       | None => schema_calibration schema
       end |}.

(** The body of the [for] loop of [ProcessorPipeline.process]: the call runs
    inside [try]; on a throw the variable [context] keeps its value.  The
    accumulator carries [context], the processors already run (with their
    states as the call left them) and the calls made so far. *)
Definition run_stage (acc : Context * list Processor * list ProcessCall)
    (processor : Processor) : Context * list Processor * list ProcessCall :=
  let '(context, done, calls) := acc in
  let '(result, st) := proc_process processor (proc_state processor) context in
  let call := {| call_name := proc_name processor;
                 call_context := context;
                 call_outcome := result |} in
  (match result with
   | Returned context' => context'
   | Thrown => context
   end,
   done ++ [set_state processor st],
   calls ++ [call]).

Definition run_processors (processors : list Processor) (context : Context)
  : Context * list Processor * list ProcessCall :=
  foldl run_stage (context, [], []) processors.

(** [ProcessorPipeline.process(input, calibration)]. *)
Definition pipeline_process (schema : Schema) (processors : list Processor)
    (input : Frame) (calibration : option Calibration)
  : Context * list Processor * list ProcessCall :=
  run_processors processors (initial_context schema input calibration).

(** [ProcessorPipeline.getProcessor(name)]. *)
Definition getProcessor (processors : list Processor) (name : string) : option Processor :=
  List.find (fun p => String.eqb (proc_name p) name) processors.

(** ** Sinks *)

(** A call [sink.emit(control, value, topic, extra)]. *)
Record Emission : Type := {
  em_control : string;
  em_value : num;
  em_topic : string;
  em_raw : option Frame;
  em_calibrated : option bool
}.

(** A sink, seen from the adapter: its connection flag, whether its backend
    is there to connect to, and the [emit] calls made on it, oldest first. *)
Record Sink : Type := {
  _connected : bool;
  sink_backend : bool;
  emitted : list Emission
}.

Definition sink_emit (e : Emission) (sink : Sink) : Sink :=
  {| _connected := _connected sink; sink_backend := sink_backend sink;
     emitted := emitted sink ++ [e] |}.

Definition sink_connect (sink : Sink) : Sink :=
  {| _connected := sink_backend sink; sink_backend := sink_backend sink;
     emitted := emitted sink |}.

Definition sink_disconnect (sink : Sink) : Sink :=
  {| _connected := false; sink_backend := sink_backend sink;
     emitted := emitted sink |}.

(** ** PaddleVisionAdapter *)

Record Stats : Type := {
  framesProcessed : nat;
  lastTimestamp : num;
  detectedFrames : nat
}.

(** The adapter object.  [calibration] is the current content of
    [this.calibration], [schema_calibration schema] that of
    [this.schema.calibration].  The two flags record sharing: whether
    [this.calibration] is the schema's calibration object itself, and whether
    its [reference] object is the schema's.  The source ([this.source]) is
    outside: it shows only in what [start] is told and in the frames that
    arrive. *)
Record Adapter : Type := {
  schema : Schema;
  sinks : list Sink;
  calibration : Calibration;
  calibration_is_schema : bool;
  reference_is_schema : bool;
  pipeline : list Processor;
  _stats : Stats;
  _running : bool
}.

(** [PaddleVisionAdapter._resolveOutput]; [None] is [undefined]. *)
Definition _resolveOutput (context : Context) (config : OutputConfig) : option value :=
  let source := source config in
  let component := component config in
  let select (val : value) : option value :=
    if string_truthy component
    then VNum <$> get_prop val (default "" component)
    else Some val in
  match ctx_smoothed context !! source with
  | Some val => select val
  | None =>
      match ctx_calibrated context !! source with
      | Some val => select val
      | None =>
          match ctx_derived context !! source with
          | Some val => select val
          | None => Some (VNum (Fin 0))
          end
      end
  end.

(** ToNumber of what [_resolveOutput] returned. *)
Definition resolved_number (v : option value) : num :=
  match v with
  | Some v => to_number v
  | None => NaN
  end.

(** [config.topic || 'hand']. *)
Definition topic_or_hand (topic : option string) : string :=
  if string_truthy topic then default "hand" topic else "hand".

(** The body of the first loop of [_emitOutputs], for one key of
    [schema.outputs]. *)
Definition emit_output (acc : Context * list Sink) (entry : string * OutputConfig)
  : Context * list Sink :=
  let '(context, sinks) := acc in
  let '(name, config) := entry in
  let value := resolved_number (_resolveOutput context config) in
  let value :=
    match range config with
    | Some range =>
        let inMin := fst (input range) in
        let inMax := snd (input range) in
        let outMin := fst (output range) in
        let outMax := snd (output range) in
        let value := div (sub value inMin) (sub inMax inMin) in
        add outMin (mul value (sub outMax outMin))
    | None => value
    end in
  let value := if invert config then sub (Fin 1) value else value in
  let value := Math_max (Fin 0) (Math_min (Fin 1) value) in
  let context := with_outputs context (<[name := value]> (ctx_outputs context)) in
  (context,
   sink_emit {| em_control := name; em_value := value;
                em_topic := topic_or_hand (topic config);
                em_raw := Some (ctx_raw context);
                em_calibrated := calibrated config |} <$> sinks).

(** [PaddleVisionAdapter._emitOutputs]: the context with its [outputs]
    filled in, and the sinks after the calls. *)
Definition _emitOutputs (schema : Schema) (sinks : list Sink) (context : Context)
  : Context * list Sink :=
  let outputs := default [] (schema_outputs schema) in
  let '(context, sinks) := foldl emit_output (context, sinks) outputs in
  let sinks :=
    match ctx_gestures context !! "flick" with
    | Some flick =>
        if gtb (amount flick) (Fin 0.1)
        then (fun sink =>
                sink_emit {| em_control := "flick-direction";
                             em_value := div (add (direction flick) (Fin 1)) (Fin 2);
                             em_topic := "hand"; em_raw := None;
                             em_calibrated := None |}
                  (sink_emit {| em_control := "flick-amount";
                                em_value := amount flick;
                                em_topic := "hand"; em_raw := None;
                                em_calibrated := None |} sink)) <$> sinks
        else sinks
    | None => sinks
    end in
  (context, sinks).

Definition with_stats (a : Adapter) (stats : Stats) : Adapter :=
  {| schema := schema a; sinks := sinks a; calibration := calibration a;
     calibration_is_schema := calibration_is_schema a;
     reference_is_schema := reference_is_schema a;
     pipeline := pipeline a; _stats := stats; _running := _running a |}.

(** [data.landmarks] is there and holds at least 21 points: the negation of
    [!data.landmarks || data.landmarks.length < 21]. *)
Definition has_landmarks (data : Frame) : bool :=
  match landmarks data with
  | Some l => negb (length l <? 21)%nat
  | None => false
  end.

(** [PaddleVisionAdapter._processFrame]: the adapter afterwards, and the
    calls of [process] the frame gave rise to. *)
Definition _processFrame (a : Adapter) (data : Frame) : Adapter * list ProcessCall :=
  let stats := {| framesProcessed := S (framesProcessed (_stats a));
                  lastTimestamp := timestamp data;
                  detectedFrames := detectedFrames (_stats a) |} in
  if negb (has_landmarks data)
  then (with_stats a stats, [])
  else
    let stats := {| framesProcessed := framesProcessed stats;
                    lastTimestamp := lastTimestamp stats;
                    detectedFrames := S (detectedFrames stats) |} in
    let '(context, processors, calls) :=
      pipeline_process (schema a) (pipeline a) data (Some (calibration a)) in
    let '(_, sinks) := _emitOutputs (schema a) (sinks a) context in
    ({| schema := schema a; sinks := sinks; calibration := calibration a;
        calibration_is_schema := calibration_is_schema a;
        reference_is_schema := reference_is_schema a;
        pipeline := processors; _stats := stats; _running := _running a |},
     calls).

(** *** Calibration API *)

(** The empty object [{}] as a calibration. *)
Definition empty_calibration : Calibration :=
  {| reference := None; tuning := None; cal_extra := ∅ |}.

(** The own enumerable properties of a parsed JSON value, which is all that
    [Object.assign] reads of it (a parsed number, boolean or [null] has
    none).  The keys [reference] and [tuning] are absent ([None]), or present
    with [null] ([Some None]) or with an object; the other keys are kept with
    their JSON text. *)
Record Profile : Type := {
  profile_reference : option (option Reference);
  profile_tuning : option (option Tuning);
  profile_extra : gmap string string
}.

(** [Object.assign({}, base, profile)]: a shallow, top-level merge. *)
Definition Object_assign (base : option Calibration) (profile : Profile) : Calibration :=
  let base := default empty_calibration base in
  {| reference := default (reference base) (profile_reference profile);
     tuning := default (tuning base) (profile_tuning profile);
     cal_extra := profile_extra profile ∪ cal_extra base |}.

(** [PaddleVisionAdapter.setCalibration]; [profile] is a fresh object, as
    [JSON.parse] returns it.  The new calibration object is not the schema's,
    and it shares the schema's [reference] object when the profile has none. *)
Definition setCalibration (a : Adapter) (profile : Profile) : Adapter :=
  {| schema := schema a; sinks := sinks a;
     calibration := Object_assign (schema_calibration (schema a)) profile;
     calibration_is_schema := false;
     reference_is_schema :=
       match profile_reference profile with
       | None => true
       | Some _ => false
       end;
     pipeline := pipeline a; _stats := _stats a; _running := _running a |}.

Definition with_schema_calibration (s : Schema) (c : option Calibration) : Schema :=
  {| schema_landmarks := schema_landmarks s; schema_outputs := schema_outputs s;
     schema_calibration := c |}.

Definition with_reference (c : Calibration) (r : Reference) : Calibration :=
  {| reference := Some r; tuning := tuning c; cal_extra := cal_extra c |}.

(** [PaddleVisionAdapter.captureReferencePoint]: what it returns ([None] is
    [null]) and the adapter afterwards.  The write goes through to the
    schema's calibration where the object written to is shared with it. *)
Definition captureReferencePoint (a : Adapter) (point : RefName)
  : option RefPoint * Adapter :=
  match getProcessor (pipeline a) "SmoothProcessor" with
  | None => (None, a)
  | Some smoothProc =>
      match proc_state smoothProc !! "theta" with
      | None => (None, a)
      | Some theta =>
          if negb (truthy theta) then (None, a)
          else
            let variance := Fin 0.02 in
            let had_reference := reference (calibration a) in
            let rec := {| rawRotation := Some theta; variance := Some variance |} in
            let reference' :=
              ref_set (default empty_reference had_reference) point rec in
            let calibration' := with_reference (calibration a) reference' in
            let shared_reference :=
              reference_is_schema a && bool_decide (is_Some had_reference) in
            let schema' :=
              if calibration_is_schema a
              then with_schema_calibration (schema a) (Some calibration')
              else if shared_reference
              then with_schema_calibration (schema a)
                     ((fun c => with_reference c reference')
                        <$> schema_calibration (schema a))
              else schema a in
            (ref_get reference' point,
             {| schema := schema'; sinks := sinks a;
                calibration := calibration';
                calibration_is_schema := calibration_is_schema a;
                reference_is_schema :=
                  calibration_is_schema a || shared_reference;
                pipeline := pipeline a; _stats := _stats a;
                _running := _running a |})
      end
  end.

Record Validation : Type := {
  valid : bool;
  issues : list string;
  quality : num
}.

(** [PaddleVisionAdapter.validateCalibration]. *)
Definition validateCalibration (a : Adapter) : Validation :=
  let reference := default empty_reference (reference (calibration a)) in
  let issues : list string := [] in
  let quality := Fin 1 in
  let range :=
    sub (or_else (pronate reference ≫= rawRotation) (Fin 0))
        (or_else (supinate reference ≫= rawRotation) (Fin 0)) in
  let '(issues, quality) :=
    if ltb range (Fin 0.3)
    then (issues ++ ["Rotation range too small"], mul quality (Fin 0.5))
    else (issues, quality) in
  let asymmetry :=
    Math_abs (sub (Math_abs (or_else (supinate reference ≫= rawRotation) (Fin 0)))
                  (Math_abs (or_else (pronate reference ≫= rawRotation) (Fin 0)))) in
  let '(issues, quality) :=
    if gtb asymmetry (Fin 0.2)
    then (issues ++ ["Asymmetric range detected"], mul quality (Fin 0.8))
    else (issues, quality) in
  let '(issues, quality) :=
    if gtb (Math_abs (or_else (center reference ≫= rawRotation) (Fin 0))) (Fin 0.1)
    then (issues ++ ["Center point not neutral"], mul quality (Fin 0.9))
    else (issues, quality) in
  {| valid := bool_decide (length issues = 0%nat);
     issues := issues;
     quality := quality |}.

Section CalibrationImport.

(** [JSON.parse], the host's, followed by the reading of the parsed value's
    own properties as a [Profile]; [None] when it throws a SyntaxError. *)
Variable JSON_parse : string -> option Profile.

(** [PaddleVisionAdapter.importCalibration]. *)
Definition importCalibration (a : Adapter) (json : string) : bool * Adapter :=
  match JSON_parse json with
  | Some profile => (true, setCalibration a profile)
  | None => (false, a)
  end.

End CalibrationImport.

(** *** Stats API *)

(** A frame counter as a number. *)
Definition num_of_count (n : nat) : num := Fin (inject_Z (Z.of_nat n)).

(** What [getStats] returns ([source] is opaque and left out). *)
Record StatsReport : Type := {
  report_framesProcessed : nat;
  report_detectedFrames : nat;
  detectionRate : num;
  report_lastTimestamp : num
}.

(** [PaddleVisionAdapter.getStats]. *)
Definition getStats (a : Adapter) : StatsReport :=
  {| report_framesProcessed := framesProcessed (_stats a);
     report_detectedFrames := detectedFrames (_stats a);
     detectionRate :=
       if (0 <? framesProcessed (_stats a))%nat
       then div (num_of_count (detectedFrames (_stats a)))
                (num_of_count (framesProcessed (_stats a)))
       else Fin 0;
     report_lastTimestamp := lastTimestamp (_stats a) |}.

(** *** Lifecycle *)

(** The constructor, given the processors its pipeline is built with:
    [this.calibration = options.calibration || this.schema.calibration].
    With neither, [this.calibration] is [undefined] and is read here as the
    empty profile: frames are processed alike, while the calibration methods
    of the source would throw. *)
Definition new_adapter (schema : Schema) (sinks : list Sink)
    (calibration : option Calibration) (processors : list Processor) : Adapter :=
  {| schema := schema; sinks := sinks;
     calibration :=
       match calibration with
       | Some c => c
       | None => default empty_calibration (schema_calibration schema)
       end;
     calibration_is_schema := bool_decide (calibration = None);
     reference_is_schema := bool_decide (calibration = None);
     pipeline := processors;
     _stats := {| framesProcessed := 0; lastTimestamp := Fin 0; detectedFrames := 0 |};
     _running := false |}.

Definition with_sinks_running (a : Adapter) (sinks : list Sink) (running : bool) : Adapter :=
  {| schema := schema a; sinks := sinks; calibration := calibration a;
     calibration_is_schema := calibration_is_schema a;
     reference_is_schema := reference_is_schema a;
     pipeline := pipeline a; _stats := _stats a; _running := running |}.

(** [PaddleVisionAdapter.start]; [source_started] is what [source.start()]
    answers. *)
Definition start (a : Adapter) (source_started : bool) : Adapter :=
  if _running a then a
  else
    let sinks := sink_connect <$> sinks a in
    if negb source_started
    then with_sinks_running a sinks false
    else with_sinks_running a sinks true.

(** [PaddleVisionAdapter.stop]. *)
Definition stop (a : Adapter) : Adapter :=
  if negb (_running a) then a
  else with_sinks_running a (sink_disconnect <$> sinks a) false.

(** What can happen to an adapter: [start], [stop], and the source emitting
    a frame, which reaches [_processFrame] while the adapter is subscribed. *)
Inductive Op : Type :=
| OpStart (source_started : bool)
| OpFrame (data : Frame)
| OpStop.

Definition step (a : Adapter) (op : Op) : Adapter :=
  match op with
  | OpStart source_started => start a source_started
  | OpFrame data => if _running a then fst (_processFrame a data) else a
  | OpStop => stop a
  end.

Definition run (a : Adapter) (ops : list Op) : Adapter := foldl step a ops.

(** ** The built-in default schema *)

Definition default_calibration : Calibration :=
  {| reference :=
       Some {| center := Some {| rawRotation := Some (Fin 0); variance := Some (Fin 0.01) |};
               supinate := Some {| rawRotation := Some (Fin (-0.52)); variance := Some (Fin 0.02) |};
               pronate := Some {| rawRotation := Some (Fin 0.52); variance := Some (Fin 0.02) |} |};
     tuning :=
       Some {| sensitivity := Some {| sens_left := Fin 1; sens_right := Fin 1 |};
               reverse := false;
               smoothing := Some {| smoothing_factor := Fin 0.3;
                                    smoothing_deadzone := Fin 0.02 |} |};
     cal_extra := ∅ |}.

Definition default_output (source : string) (component : option string)
    (input : num * num) : OutputConfig :=
  {| source := source; component := component;
     range := Some {| input := input; output := (Fin 0, Fin 1) |};
     invert := false; topic := Some "hand"; calibrated := None |}.

(** [PaddleVisionBuilder._getDefaultSchema], the parts read here. *)
Definition _getDefaultSchema : Schema :=
  {| schema_landmarks :=
       {[ "WRIST" := 0%nat; "INDEX_MCP" := 5%nat; "PINKY_MCP" := 17%nat;
          "THUMB_TIP" := 4%nat; "INDEX_TIP" := 8%nat; "MIDDLE_TIP" := 12%nat ]};
     schema_outputs :=
       Some [ ("hand-x", default_output "hand-center-calibrated" (Some "x") (Fin (-1), Fin 1));
              ("hand-y", default_output "hand-center-calibrated" (Some "y") (Fin (-1), Fin 1));
              ("hand-theta", default_output "hand-rotation-calibrated" None (Fin (-1), Fin 1));
              ("hand-spread", default_output "finger-spread" None (Fin 0, Fin 1)) ];
     schema_calibration := Some default_calibration |}.

(** The [finger-spread] derivation of the default schema. *)
Definition default_finger_spread : TriangleAreaConfig :=
  {| points := ["THUMB_TIP"; "INDEX_TIP"; "MIDDLE_TIP"];
     area_normalize := Some {| norm_min := Fin 0.001; norm_max := Fin 0.05;
                               outputMax := Some (Fin 1) |} |}.

(** ** Sample data *)

Definition sample_point (x y : Q) : Point.t :=
  Point.mk (Fin x) (Fin y) (Some (Fin 0)).

(** A frame of 21 landmarks, all at the centre of the image except for an
    index knuckle and a pinky knuckle that give the hand a rotation. *)
Definition sample_landmarks : list Point.t :=
  <[17%nat := sample_point 0.6 0.6]>
    (<[5%nat := sample_point 0.4 0.5]> (replicate 21 (sample_point 0.5 0.5))).

Definition sample_frame : Frame :=
  {| landmarks := Some sample_landmarks; timestamp := Fin 40 |}.

(** A frame in which no hand was detected. *)
Definition empty_frame : Frame :=
  {| landmarks := None; timestamp := Fin 80 |}.

Definition sample_sink : Sink :=
  {| _connected := true; sink_backend := true; emitted := [] |}.

(** A context as it leaves the Calibrate stage, with the hand rotated fully
    to one side. *)
Definition sample_context : Context :=
  {| ctx_raw := sample_frame;
     ctx_derived := {[ "hand-rotation" := VNum (Fin 0.52) ]};
     ctx_calibrated := {[ "hand-rotation" := VNum (Fin 0.52);
                          "hand-rotation-calibrated" := VNum (Fin 1) ]};
     ctx_smoothed := ∅;
     ctx_gestures := ∅;
     ctx_outputs := ∅;
     ctx_meta := ∅;
     ctx_calibration := Some default_calibration |}.


(** A profile whose pronate reference was stored with rotation 0. *)
Definition zero_pronate_reference : Reference :=
  {| center := Some {| rawRotation := Some (Fin 0); variance := Some (Fin 0.01) |};
     supinate := Some {| rawRotation := Some (Fin (-0.5)); variance := Some (Fin 0.02) |};
     pronate := Some {| rawRotation := Some (Fin 0); variance := Some (Fin 0.02) |} |}.

Definition zero_pronate_calibration : Calibration :=
  {| reference := Some zero_pronate_reference;
     tuning := tuning default_calibration;
     cal_extra := ∅ |}.

(** A context as it leaves the Extract stage, the hand rotated by 0.1 rad. *)
Definition zero_pronate_context : Context :=
  {| ctx_raw := sample_frame;
     ctx_derived := {[ "hand-rotation" := VNum (Fin 0.1) ]};
     ctx_calibrated := ∅;
     ctx_smoothed := ∅;
     ctx_gestures := ∅;
     ctx_outputs := ∅;
     ctx_meta := ∅;
     ctx_calibration := Some zero_pronate_calibration |}.

(** The default pipeline past the Extract stage. *)
Definition sample_processors : list Processor :=
  [ CalibrateProcessor _getDefaultSchema;
    SmoothProcessor {| factor := Some (Fin 0.3); deadzone := Some (Fin 0.02) |};
    FlickDetectProcessor {| decay := Some (Fin 0.85); threshold := Some (Fin 0.15) |} ].

(** A freshly built adapter on the default schema. *)
Definition sample_adapter : Adapter :=
  new_adapter _getDefaultSchema [sample_sink] None sample_processors.

(** The same adapter once its Smooth processor holds a rotation of 0.25. *)
Definition rotated_adapter : Adapter :=
  new_adapter _getDefaultSchema [sample_sink] None
    [ CalibrateProcessor _getDefaultSchema;
      set_state (SmoothProcessor {| factor := Some (Fin 0.3); deadzone := Some (Fin 0.02) |})
                (<["theta" := Fin 0.25]> smooth_initial_state) ].

(** A pipeline whose middle stage is the abstract base processor, which
    throws. *)
Definition faulty_processors : list Processor :=
  [ CalibrateProcessor _getDefaultSchema;
    BaseProcessor;
    SmoothProcessor {| factor := None; deadzone := None |} ].

(** An adapter holding the given reference rotations. *)
Definition adapter_with_reference (s p c : Q) : Adapter :=
  new_adapter _getDefaultSchema []
    (Some {| reference :=
               Some {| center := Some {| rawRotation := Some (Fin c); variance := None |};
                       supinate := Some {| rawRotation := Some (Fin s); variance := None |};
                       pronate := Some {| rawRotation := Some (Fin p); variance := None |} |};
             tuning := None; cal_extra := ∅ |})
    sample_processors.

(** ** Statements read off the specification

    Each definition below follows the wording of the specification, not the
    code; the theorems compare the two. *)








Definition clamp01 (v : num) : num := Math_max (Fin 0) (Math_min (Fin 1) v).









(** Rotation calibration, steps 1 to 4.  [default_of] says when a reference
    rotation gives way to its default: [nullish] reads "when unset", [or_else]
    reads "when unset or zero". *)
Definition spec_rotation (default_of : option num -> num -> num)
    (reference : Reference) (tuning : option Tuning) (raw : num) : num :=
  let thetaRange :=
    sub (default_of (pronate reference ≫= rawRotation) (Fin 0.52))
        (default_of (supinate reference ≫= rawRotation) (Fin (-0.52))) in
  let normalized :=
    div (sub raw (or_else (center reference ≫= rawRotation) (Fin 0)))
        (div thetaRange (Fin 2)) in
  let sensitivity :=
    default {| sens_left := Fin 1; sens_right := Fin 1 |} (tuning ≫= sensitivity) in
  let scaled :=
    mul normalized
        (if ltb normalized (Fin 0) then sens_left sensitivity else sens_right sensitivity) in
  let clamped := Math_max (Fin (-1)) (Math_min (Fin 1) scaled) in
  if default false (reverse <$> tuning) then neg clamped else clamped.

(** The reference rotations and sensitivities of a profile are finite numbers
    (or unset). *)
Definition finite_opt (o : option num) : Prop :=
  match o with
  | Some (Fin _) | None => True
  | Some _ => False
  end.

Definition finite_profile (reference : Reference) (tuning : option Tuning) : Prop :=
  finite_opt (center reference ≫= rawRotation) /\
  finite_opt (supinate reference ≫= rawRotation) /\
  finite_opt (pronate reference ≫= rawRotation) /\
  finite_opt (sens_left <$> (tuning ≫= sensitivity)) /\
  finite_opt (sens_right <$> (tuning ≫= sensitivity)).

(** The rotation range the code divides by. *)
Definition thetaRange_of (reference : Reference) : num :=
  sub (or_else (pronate reference ≫= rawRotation) (Fin 0.52))
      (or_else (supinate reference ≫= rawRotation) (Fin (-0.52))).

(** A reference rotation that is unset, or set to a number other than 0 and
    NaN. *)
Definition unset_or_nonzero (o : option num) : Prop :=
  match o with
  | Some v => truthy v = true
  | None => True
  end.

(** The context a stage is handed: the one produced by the last stage that
    returned, the initial one if none did. *)
Definition returned_context (call : ProcessCall) : option Context :=
  match call_outcome call with
  | Returned context => Some context
  | Thrown => None
  end.

Definition last_returned (initial : Context) (calls : list ProcessCall) : Context :=
  default initial (last (omap returned_context calls)).

(** The rescale-and-clamp of the distance derivation. *)
Definition spec_normalize (normalize : Normalize) (raw : num) : num :=
  let outputMax := or_else (outputMax normalize) (Fin 1) in
  Math_min outputMax
    (Math_max (Fin 0)
       (mul (div (sub raw (norm_min normalize))
                 (sub (norm_max normalize) (norm_min normalize)))
            outputMax)).

(** Calibration validation: three independent checks, each with its issue
    and its penalty; the issues are those of the failed checks, the quality
    the product of their penalties. *)
Definition spec_checks (s p c : num) : list (bool * (string * num)) :=
  [ (ltb (sub p s) (Fin 0.3), ("Rotation range too small", Fin 0.5));
    (gtb (Math_abs (sub (Math_abs s) (Math_abs p))) (Fin 0.2),
     ("Asymmetric range detected", Fin 0.8));
    (gtb (Math_abs c) (Fin 0.1), ("Center point not neutral", Fin 0.9)) ].

Definition spec_validation (s p c : num) : Validation :=
  let failed := snd <$> filter (fun check => fst check = true) (spec_checks s p c) in
  {| valid := bool_decide (fst <$> failed = []);
     issues := fst <$> failed;
     quality := foldl (fun q check => mul q (snd check)) (Fin 1) failed |}.

(** A detected frame is a processed one. *)
Definition counters_ordered (a : Adapter) : Prop :=
  (detectedFrames (_stats a) <= framesProcessed (_stats a))%nat.

(** The record [captureReferencePoint] writes for a rotation [theta]. *)
Definition captured (theta : num) : RefPoint :=
  {| rawRotation := Some theta; variance := Some (Fin 0.02) |}.

(** [calibration.reference[point]], [undefined] without a reference. *)
Definition reference_point (c : Calibration) (point : RefName) : option RefPoint :=
  reference c ≫= fun ref => ref_get ref point.

(** ** The rest of the derivation library *)

(** [lm[comp]] on a landmark. *)
Definition point_component (lm : Point.t) (comp : string) : option num :=
  if String.eqb comp "x" then Some (Point.x lm)
  else if String.eqb comp "y" then Some (Point.y lm)
  else if String.eqb comp "z" then Point.z lm
  else None.

(** A derivation descriptor: the object [{type, ...}] of [schema.derived],
    every parameter possibly missing. *)
Record DeriveDef : Type := {
  def_type : string;
  def_inputs : option (list string);
  def_components : option (list string);
  def_from : option string;
  def_to : option string;
  def_normalize : option Normalize;
  def_points : option (list string);
  def_landmark : option string;
  def_component : option string;
  def_from1 : option string;
  def_to1 : option string;
  def_from2 : option string;
  def_to2 : option string
}.

(** A missing name used as a property key reads as the key "undefined". *)
Definition key_of (name : option string) : string := default "undefined" name.

(** The inner loop of [average]: [sum += lm[comp]] over the inputs, from 0;
    it throws on an input that is [undefined]. *)
Definition component_sum (inputs : list (option Point.t)) (comp : string) : option num :=
  foldl (fun (sum : option num) (lm : option Point.t) =>
           sum ← sum;
           lm ← lm;
           Some (add sum (undef_to_number (point_component lm comp))))
        (Some (Fin 0)) inputs.

(** [DERIVATION_TYPES.average]. *)
Definition average (landmarks : list Point.t) (config : DeriveDef) (schema : Schema)
  : option value :=
  names ← def_inputs config;
  inputs ← mapM (landmark_at landmarks schema) names;
  components ← def_components config;
  result ← foldl (fun (result : option (gmap string num)) (comp : string) =>
                    result ← result;
                    sum ← component_sum inputs comp;
                    Some (<[comp := div sum (num_of_count (length inputs))]> result))
                 (Some ∅) components;
  Some (VObj result).

(** [DERIVATION_TYPES.component]. *)
Definition component_deriver (landmarks : list Point.t) (config : DeriveDef)
    (schema : Schema) : option value :=
  lm ← mjoin (landmark_at landmarks schema (key_of (def_landmark config)));
  Some (VNum (or_else (point_component lm (key_of (def_component config))) (Fin 0))).

(** [x === 0] on a number. *)
Definition is_strictly_zero (a : num) : bool :=
  match a with
  | Fin q => is_zero q
  | _ => false
  end.

Section Derivers.

(** [Math.sqrt] and [Math.atan2], the host's. *)
Variable Math_sqrt : num -> num.
Variable Math_atan2 : num -> num -> num.

(** [DERIVATION_TYPES.angle]. *)
Definition angle (landmarks : list Point.t) (config : DeriveDef) (schema : Schema)
  : option value :=
  from ← mjoin (landmark_at landmarks schema (key_of (def_from config)));
  to ← mjoin (landmark_at landmarks schema (key_of (def_to config)));
  let dx := sub (Point.x to) (Point.x from) in
  let dy := sub (Point.y to) (Point.y from) in
  Some (VNum (Math_atan2 dy dx)).

(** [DERIVATION_TYPES.dotProduct]. *)
Definition dotProduct (landmarks : list Point.t) (config : DeriveDef) (schema : Schema)
  : option value :=
  from1 ← mjoin (landmark_at landmarks schema (key_of (def_from1 config)));
  to1 ← mjoin (landmark_at landmarks schema (key_of (def_to1 config)));
  from2 ← mjoin (landmark_at landmarks schema (key_of (def_from2 config)));
  to2 ← mjoin (landmark_at landmarks schema (key_of (def_to2 config)));
  let v1x := sub (Point.x to1) (Point.x from1) in
  let v1y := sub (Point.y to1) (Point.y from1) in
  let v2x := sub (Point.x to2) (Point.x from2) in
  let v2y := sub (Point.y to2) (Point.y from2) in
  let len1 := Math_sqrt (add (mul v1x v1x) (mul v1y v1y)) in
  let len2 := Math_sqrt (add (mul v2x v2x) (mul v2y v2y)) in
  if is_strictly_zero len1 || is_strictly_zero len2 then Some (VNum (Fin 0))
  else Some (VNum (div (add (mul v1x v2x) (mul v1y v2y)) (mul len1 len2))).

(** A deriver: it throws ([None]), returns [null] ([Some None]) or a value. *)
Definition Deriver : Type :=
  list Point.t -> DeriveDef -> Schema -> option (option value).

(** The table [DERIVATION_TYPES] as the file builds it. *)
Definition DERIVATION_TYPES : gmap string Deriver :=
  {[ "average" := (fun landmarks config schema =>
                     Some <$> average landmarks config schema);
     "angle" := (fun landmarks config schema =>
                   Some <$> angle landmarks config schema);
     "distance" := (fun landmarks config schema =>
                      (Some ∘ VNum) <$>
                      distance Math_sqrt landmarks
                        {| dist_from := key_of (def_from config);
                           dist_to := key_of (def_to config);
                           dist_normalize := def_normalize config |} schema);
     "triangleArea" := (fun landmarks config schema =>
                          points ← def_points config;
                          (Some ∘ VNum) <$>
                          triangleArea landmarks
                            {| points := points;
                               area_normalize := def_normalize config |} schema);
     "component" := (fun landmarks config schema =>
                       Some <$> component_deriver landmarks config schema);
     "dotProduct" := (fun landmarks config schema =>
                        Some <$> dotProduct landmarks config schema) ]}.

End Derivers.

(** [computeDerived], over the current table: [null] for an unknown type. *)
Definition computeDerived (table : gmap string Deriver) (landmarks : list Point.t)
    (deriveDef : DeriveDef) (schema : Schema) : option (option value) :=
  match table !! def_type deriveDef with
  | None => Some None
  | Some deriver => deriver landmarks deriveDef schema
  end.

(** [registerDeriver]. *)
Definition registerDeriver (table : gmap string Deriver) (name : string) (fn : Deriver)
  : gmap string Deriver :=
  <[name := fn]> table.

(** *** ExtractProcessor *)

(** The parts of a schema the claims' code does not read: [schema.derived] in
    [Object.entries] order and [schema.pipeline]. *)
Record StageDef : Type := {
  stage_processor : string;
  stage_config : option (gmap string num)
}.

Record SchemaRest : Type := {
  schema_derived : option (list (string * DeriveDef));
  schema_pipeline : option (list StageDef)
}.

Definition with_derived (context : Context) (derived : gmap string value) : Context :=
  {| ctx_raw := ctx_raw context; ctx_derived := derived;
     ctx_calibrated := ctx_calibrated context; ctx_smoothed := ctx_smoothed context;
     ctx_gestures := ctx_gestures context; ctx_outputs := ctx_outputs context;
     ctx_meta := ctx_meta context; ctx_calibration := ctx_calibration context |}.

(** The loop of [ExtractProcessor.process] over the entries of
    [schema.derived]; [None] when a deriver throws. *)
Definition extract_entry (table : gmap string Deriver) (landmarks : list Point.t)
    (schema : Schema) (derived : option (gmap string value))
    (entry : string * DeriveDef) : option (gmap string value) :=
  derived ← derived;
  value ← computeDerived table landmarks (snd entry) schema;
  match value with
  | Some v => Some (<[fst entry := v]> derived)
  | None => Some derived
  end.

(** [ExtractProcessor.process]; [None] when it throws. *)
Definition ExtractProcessor_process (table : gmap string Deriver) (schema : Schema)
    (rest : SchemaRest) (context : Context) : option Context :=
  if negb (has_landmarks (ctx_raw context)) then Some context
  else
    let landmarks := default [] (landmarks (ctx_raw context)) in
    derived ← foldl (extract_entry table landmarks schema) (Some ∅)
                    (default [] (schema_derived rest));
    Some (with_derived context derived).

Definition ExtractProcessor (table : gmap string Deriver) (schema : Schema)
    (rest : SchemaRest) : Processor :=
  {| proc_name := "ExtractProcessor";
     proc_state := ∅;
     proc_process := fun st context =>
       match ExtractProcessor_process table schema rest context with
       | Some context' => (Returned context', st)
       | None => (Thrown, st)
       end |}.

(** ** The rest of ProcessorPipeline *)

(** A processor class as the registry holds it: [new C(config, schema)]. *)
Definition ProcessorClass : Type :=
  gmap string num -> Schema -> SchemaRest -> Processor.

Definition smooth_config_of (config : gmap string num) : SmoothConfig :=
  {| factor := config !! "factor"; deadzone := config !! "deadzone" |}.

Definition flick_config_of (config : gmap string num) : FlickConfig :=
  {| decay := config !! "decay"; threshold := config !! "threshold" |}.

(** [PROCESSOR_REGISTRY] as the file builds it.  The derivation table is the
    one frames are processed with.  The table holds the object's own keys:
    names it would inherit from [Object.prototype] are not stage names here. *)
Definition PROCESSOR_REGISTRY (table : gmap string Deriver) : gmap string ProcessorClass :=
  {[ "extract" := (fun _ schema rest => ExtractProcessor table schema rest);
     "calibrate" := (fun _ schema _ => CalibrateProcessor schema);
     "smooth" := (fun config _ _ => SmoothProcessor (smooth_config_of config));
     "flick-detect" := (fun config _ _ => FlickDetectProcessor (flick_config_of config)) ]}.

(** [registerProcessor]. *)
Definition registerProcessor (registry : gmap string ProcessorClass) (name : string)
    (class : ProcessorClass) : gmap string ProcessorClass :=
  <[name := class]> registry.

(** The body of the loop of [_buildFromSchema]: an unknown name is warned
    about and skipped. *)
Definition build_stage (registry : gmap string ProcessorClass) (schema : Schema)
    (rest : SchemaRest) (processors : list Processor) (stage : StageDef)
  : list Processor :=
  match registry !! stage_processor stage with
  | Some class => processors ++ [class (default ∅ (stage_config stage)) schema rest]
  | None => processors
  end.

(** [ProcessorPipeline._buildFromSchema], from the empty list the
    constructor starts with. *)
Definition _buildFromSchema (registry : gmap string ProcessorClass) (schema : Schema)
    (rest : SchemaRest) : list Processor :=
  foldl (build_stage registry schema rest) [] (default [] (schema_pipeline rest)).

(** [ProcessorPipeline.insertProcessor(processor, index)], [index] an
    integer. *)
Definition insertProcessor (processors : list Processor) (processor : Processor)
    (index : Z) : list Processor :=
  if ((index <? 0) || (Z.of_nat (length processors) <=? index))%Z
  then processors ++ [processor]
  else take (Z.to_nat index) processors ++ processor :: drop (Z.to_nat index) processors.

(** [ProcessorPipeline.removeProcessor(nameOrClass)]: a name, or a class
    given by its [instanceof] test. *)
Definition removeProcessor (processors : list Processor)
    (nameOrClass : string + (Processor -> bool)) : list Processor :=
  List.filter (fun p =>
                 match nameOrClass with
                 | inl name => negb (String.eqb (proc_name p) name)
                 | inr instance_of => negb (instance_of p)
                 end) processors.

(** The constructor of the adapter, pipeline included: the schema's
    processors, then the custom ones inserted at their positions. *)
Definition PaddleVisionAdapter_new (registry : gmap string ProcessorClass)
    (schema : Schema) (rest : SchemaRest) (sinks : list Sink)
    (calibration : option Calibration) (customProcessors : list (Processor * Z))
  : Adapter :=
  new_adapter schema sinks calibration
    (foldl (fun processors item => insertProcessor processors (fst item) (snd item))
           (_buildFromSchema registry schema rest) customProcessors).

(** ** The rest of the adapter *)

(** The empty object [{}] as a tuning. *)
Definition empty_tuning : Tuning :=
  {| sensitivity := None; reverse := false; smoothing := None |}.

(** The own properties of the argument of [setTuning]. *)
Record PartialTuning : Type := {
  partial_sensitivity : option (option Sensitivity);
  partial_reverse : option bool;
  partial_smoothing : option (option Smoothing)
}.

(** [Object.assign({}, tuning, partial)]. *)
Definition assign_tuning (tuning : option Tuning) (partial : PartialTuning) : Tuning :=
  let tuning := default empty_tuning tuning in
  {| sensitivity := default (sensitivity tuning) (partial_sensitivity partial);
     reverse := default (reverse tuning) (partial_reverse partial);
     smoothing := default (smoothing tuning) (partial_smoothing partial) |}.

(** [PaddleVisionAdapter.getTuning]. *)
Definition getTuning (a : Adapter) : Tuning :=
  default empty_tuning (tuning (calibration a)).

Definition with_tuning (c : Calibration) (t : Tuning) : Calibration :=
  {| reference := reference c; tuning := Some t; cal_extra := cal_extra c |}.

(** [this.calibration.tuning = t]: the assignment reaches the schema's
    calibration when [this.calibration] is that very object. *)
Definition assign_calibration_tuning (a : Adapter) (t : Tuning) : Adapter :=
  let calibration' := with_tuning (calibration a) t in
  {| schema :=
       if calibration_is_schema a
       then with_schema_calibration (schema a) (Some calibration')
       else schema a;
     sinks := sinks a;
     calibration := calibration';
     calibration_is_schema := calibration_is_schema a;
     reference_is_schema := reference_is_schema a;
     pipeline := pipeline a; _stats := _stats a; _running := _running a |}.

(** [PaddleVisionAdapter.setTuning], on an adapter that has a calibration
    object (see [new_adapter]). *)
Definition setTuning (a : Adapter) (partial : PartialTuning) : Adapter :=
  assign_calibration_tuning a (assign_tuning (tuning (calibration a)) partial).

(** [PaddleVisionAdapter.resetTuning]; it throws ([None]) on a schema that
    has no calibration. *)
Definition resetTuning (a : Adapter) : option Adapter :=
  schema_cal ← schema_calibration (schema a);
  Some (assign_calibration_tuning a (default empty_tuning (tuning schema_cal))).

(** [PaddleVisionAdapter.getValues]. *)
Definition getValues (a : Adapter) : gmap string num :=
  match getProcessor (pipeline a) "SmoothProcessor" with
  | Some smoothProc => proc_state smoothProc
  | None => ∅
  end.

(** [PaddleVisionAdapter.isRunning]. *)
Definition isRunning (a : Adapter) : bool := _running a.

(** ** SourceAdapter *)

(** The listeners of a source, each callback known by its identity. *)
Record SourceAdapter : Type := {
  _listeners : list nat;
  source_running : bool
}.

(** The function [onData] returns, applied: the first registration of
    [callback] is spliced out, if there is one. *)
Fixpoint remove_first (callback : nat) (listeners : list nat) : list nat :=
  match listeners with
  | [] => []
  | l :: rest => if Nat.eqb l callback then rest else l :: remove_first callback rest
  end.

(** [SourceAdapter.onData(callback)]. *)
Definition onData (source : SourceAdapter) (callback : nat) : SourceAdapter :=
  {| _listeners := _listeners source ++ [callback];
     source_running := source_running source |}.

Definition unsubscribe (source : SourceAdapter) (callback : nat) : SourceAdapter :=
  {| _listeners := remove_first callback (_listeners source);
     source_running := source_running source |}.

(** ** MockSource *)

(** The table [fingerOffsets]. *)
Definition fingerOffsets : list (Q * Q) :=
  [ (0, 0);
    (-0.08, -0.02); (-0.10, -0.04); (-0.11, -0.06); (-0.12, -0.08);
    (-0.04, -0.10); (-0.04, -0.14); (-0.04, -0.17); (-0.04, -0.20);
    (0, -0.11); (0, -0.15); (0, -0.18); (0, -0.21);
    (0.04, -0.10); (0.04, -0.14); (0.04, -0.17); (0.04, -0.19);
    (0.08, -0.08); (0.08, -0.11); (0.08, -0.13); (0.08, -0.15) ].

Section Mock.

(** [Math.sin] and [Math.cos], the host's. *)
Variable Math_sin : num -> num.
Variable Math_cos : num -> num.

(** [MockSource._generateLandmarks] at time [t]; [random] holds what the
    three calls of [Math.random] return in the 'random' pattern. *)
Definition _generateLandmarks (pattern : string) (t : num) (random : num * num * num)
  : list Point.t :=
  let '(baseX, baseY, rotation) :=
    if String.eqb pattern "sine"
    then (add (Fin 0.5) (mul (Math_sin t) (Fin 0.3)),
          add (Fin 0.5) (mul (Math_cos (mul t (Fin 0.7))) (Fin 0.2)),
          mul (Math_sin (mul t (Fin 0.5))) (Fin 0.5))
    else if String.eqb pattern "random"
    then (add (Fin 0.3) (mul (fst (fst random)) (Fin 0.4)),
          add (Fin 0.3) (mul (snd (fst random)) (Fin 0.4)),
          mul (sub (snd random) (Fin 0.5)) (Fin 1))
    else (Fin 0.5, Fin 0.5, Fin 0) in
  let cos := Math_cos rotation in
  let sin := Math_sin rotation in
  (fun i : nat =>
     let offset := default (0, 0) (fingerOffsets !! i) in
     let rx := sub (mul (Fin (fst offset)) cos) (mul (Fin (snd offset)) sin) in
     let ry := add (mul (Fin (fst offset)) sin) (mul (Fin (snd offset)) cos) in
     Point.mk (add baseX rx) (add baseY ry) (Some (Fin 0))) <$> seq 0 21.

(** [MockSource._generateFrame]: the new [_t] and the frame; [now] is what
    [performance.now()] returns. *)
Definition _generateFrame (pattern : string) (t : num) (now : num)
    (random : num * num * num) : num * Frame :=
  let t := add t (Fin 0.05) in
  (t, {| landmarks := Some (_generateLandmarks pattern t random); timestamp := now |}).

End Mock.

(** ** ConsoleSink *)

Record ConsoleSink : Type := {
  console_connected : bool;
  throttle : num;
  _lastLog : gmap string num
}.

(** The constructor: [options.throttle || 100]. *)
Definition new_ConsoleSink (throttle : option num) : ConsoleSink :=
  {| console_connected := false;
     throttle := or_else throttle (Fin 100);
     _lastLog := ∅ |}.

(** A call of [console.log] by the sink, with the time it was made at. *)
Record ConsoleLine : Type := {
  line_time : num;
  line_control : string;
  line_topic : string;
  line_value : num
}.

(** [ConsoleSink.emit]; [now] is what [performance.now()] returns. *)
Definition ConsoleSink_emit (sink : ConsoleSink) (now : num) (control : string)
    (value : num) (topic : string) : ConsoleSink * option ConsoleLine :=
  let lastTime := or_else (_lastLog sink !! control) (Fin 0) in
  if ltb (sub now lastTime) (throttle sink) then (sink, None)
  else
    ({| console_connected := console_connected sink;
        throttle := throttle sink;
        _lastLog := <[control := now]> (_lastLog sink) |},
     Some {| line_time := now; line_control := control;
             line_topic := topic; line_value := value |}).

(** A run of [emit] calls (time, control, value), all under one topic: the
    sink afterwards and the lines logged, oldest first. *)
Definition console_run (sink : ConsoleSink) (topic : string)
    (calls : list (num * string * num)) : ConsoleSink * list ConsoleLine :=
  foldl (fun (acc : ConsoleSink * list ConsoleLine) (call : num * string * num) =>
           let '(sink', line) :=
             ConsoleSink_emit (fst acc) (fst (fst call)) (snd (fst call)) (snd call) topic in
           (sink', snd acc ++ option_list line))
        (sink, []) calls.

(** ** More statements and sample data *)

(** The state of a FlickDetectProcessor after [n] frames that all carry the
    same context. *)
Definition flick_state_after (config : FlickConfig) (context : Context)
    (st : gmap string num) (n : nat) : gmap string num :=
  Nat.iter n (fun st => snd (FlickDetectProcessor_process config st context)) st.

(** [v] multiplied [n] times by [d]. *)
Fixpoint decayed (v d : Q) (n : nat) : Q :=
  match n with
  | O => v
  | S n => decayed v d n * d
  end.



(** A context as it leaves the Smooth stage, the hand turning. *)
Definition turning_context : Context :=
  {| ctx_raw := sample_frame;
     ctx_derived := ∅;
     ctx_calibrated := ∅;
     ctx_smoothed := {[ "theta" := VNum (Fin 0.3) ]};
     ctx_gestures := ∅;
     ctx_outputs := ∅;
     ctx_meta := ∅;
     ctx_calibration := Some default_calibration |}.

Definition default_flick_config : FlickConfig :=
  {| decay := Some (Fin 0.85); threshold := Some (Fin 0.15) |}.

(** The state a FlickDetectProcessor is constructed with. *)
Definition flick_initial_state : gmap string num :=
  {[ "lastTheta" := Fin 0; "velocity" := Fin 0 ]}.

(** The centre reference the Calibrate stage works with:
    [context.calibration || this.schema.calibration || {}], then
    [reference.center]. *)
Definition effective_center (schema : Schema) (context : Context) : option RefPoint :=
  (match ctx_calibration context with
   | Some c => Some c
   | None => schema_calibration schema
   end ≫= reference) ≫= center.

(** A context as it leaves the Extract stage, with the centre of the hand. *)
Definition centred_context : Context :=
  {| ctx_raw := sample_frame;
     ctx_derived := {[ "hand-center" := VObj {[ "x" := Fin 0.75; "y" := Fin 0.5 ]} ]};
     ctx_calibrated := ∅;
     ctx_smoothed := ∅;
     ctx_gestures := ∅;
     ctx_outputs := ∅;
     ctx_meta := ∅;
     ctx_calibration := Some default_calibration |}.

(** The 'hand-center' derivation of the default schema. *)
Definition default_hand_center : DeriveDef :=
  {| def_type := "average";
     def_inputs := Some ["WRIST"; "INDEX_MCP"; "PINKY_MCP"];
     def_components := Some ["x"; "y"];
     def_from := None; def_to := None; def_normalize := None; def_points := None;
     def_landmark := None; def_component := None;
     def_from1 := None; def_to1 := None; def_from2 := None; def_to2 := None |}.

(** A landmark whose [x] and [y] are finite numbers. *)
Definition finite_point (lm : Point.t) : Prop :=
  exists x y, Point.x lm = Fin x /\ Point.y lm = Fin y.

(** A square root on the rationals for sample runs: the integer square root
    of numerator times denominator, over the denominator.  It is exact on
    squares and rounds down elsewhere. *)
Definition sqrt_down (a : num) : num :=
  match a with
  | Fin q => if Qltb q 0 then NaN
             else Fin (Z.sqrt (Qnum q * QDen q) # Qden q)
  | PInf => PInf
  | NInf | NaN => NaN
  end.

(** A thumb-to-index distance, rescaled to [0, 1]. *)
Definition pinch_distance : DistanceConfig :=
  {| dist_from := "THUMB_TIP"; dist_to := "INDEX_MCP";
     dist_normalize := Some {| norm_min := Fin 0.02; norm_max := Fin 0.2;
                               outputMax := None |} |}.

(** A dot product whose first vector runs from the wrist to the wrist. *)
Definition degenerate_dot : DeriveDef :=
  {| def_type := "dotProduct";
     def_inputs := None; def_components := None;
     def_from := None; def_to := None; def_normalize := None; def_points := None;
     def_landmark := None; def_component := None;
     def_from1 := Some "WRIST"; def_to1 := Some "WRIST";
     def_from2 := Some "INDEX_MCP"; def_to2 := Some "PINKY_MCP" |}.


(** The processor a stage definition stands for, if its name is registered. *)
Definition stage_instance (registry : gmap string ProcessorClass) (schema : Schema)
    (rest : SchemaRest) (stage : StageDef) : option Processor :=
  (fun class : ProcessorClass => class (default ∅ (stage_config stage)) schema rest)
    <$> registry !! stage_processor stage.

(** The pipeline of the default schema, with a stage no registry knows put
    in the middle. *)
Definition sample_rest : SchemaRest :=
  {| schema_derived := Some [("hand-center", default_hand_center)];
     schema_pipeline :=
       Some [ {| stage_processor := "extract"; stage_config := None |};
              {| stage_processor := "calibrate"; stage_config := None |};
              {| stage_processor := "kalman"; stage_config := None |};
              {| stage_processor := "smooth";
                 stage_config := Some {[ "factor" := Fin 0.3; "deadzone" := Fin 0.02 ]} |};
              {| stage_processor := "flick-detect";
                 stage_config := Some {[ "decay" := Fin 0.85; "threshold" := Fin 0.15 ]} |} ] |}.

(** An adapter on the default schema, its pipeline built from [sample_rest]
    with the built-in registry, and the abstract base processor added at the
    end. *)
Definition custom_adapter : Adapter :=
  PaddleVisionAdapter_new (PROCESSOR_REGISTRY ∅) _getDefaultSchema sample_rest
    [sample_sink] None [(BaseProcessor, (-1)%Z)].

(** A running adapter. *)
Definition running_adapter : Adapter :=
  with_sinks_running sample_adapter [sample_sink] true.

(** A new tuning that reverses the direction and leaves the rest. *)
Definition reverse_tuning : PartialTuning :=
  {| partial_sensitivity := None; partial_reverse := Some true;
     partial_smoothing := None |}.

(** A profile that carries neither a reference nor a tuning. *)
Definition bare_profile : Profile :=
  {| profile_reference := None; profile_tuning := None; profile_extra := ∅ |}.

(** Lines of the console log are spaced: each line comes at a finite time
    that is at least [T] after the time [last] holds for its control, and
    becomes that control's time for the lines after it. *)
Fixpoint well_spaced (T : Q) (last : string -> Q) (lines : list ConsoleLine) : Prop :=
  match lines with
  | [] => True
  | line :: rest =>
      exists t, line_time line = Fin t /\ T <= t - last (line_control line) /\
                well_spaced T (fun c => if String.eqb c (line_control line)
                                        then t else last c) rest
  end.

(** The time of the last log per control, as [emit] reads it:
    [this._lastLog[control] || 0]. *)
Definition lastTime_of (sink : ConsoleSink) (control : string) : num :=
  or_else (_lastLog sink !! control) (Fin 0).

(** A schema pipeline that extracts and calibrates only. *)
Definition unsmoothed_rest : SchemaRest :=
  {| schema_derived := Some [("hand-center", default_hand_center)];
     schema_pipeline :=
       Some [ {| stage_processor := "extract"; stage_config := None |};
              {| stage_processor := "calibrate"; stage_config := None |} ] |}.

(** Calls of a console sink's [emit] at 50, 120, 150 and 230 ms. *)
Definition sample_console_calls : list (num * string * num) :=
  [ (Fin 50, "rotation", Fin 0.5); (Fin 120, "rotation", Fin 0.6);
    (Fin 150, "rotation", Fin 0.7); (Fin 230, "rotation", Fin 0.8) ].

(** The running adapter after three frames, the middle one without a hand. *)
Definition counted_adapter : Adapter :=
  run running_adapter (OpFrame <$> [sample_frame; empty_frame; sample_frame]).

(** An adapter that extracts and calibrates only, started and fed a frame. *)
Definition unsmoothed_adapter : Adapter :=
  run (PaddleVisionAdapter_new (PROCESSOR_REGISTRY ∅) _getDefaultSchema
         unsmoothed_rest [sample_sink] None [])
      [OpStart true; OpFrame sample_frame].

(** The 'hand-theta' output of the default schema. *)
Definition hand_theta_output : OutputConfig :=
  default_output "hand-rotation-calibrated" None (Fin (-1), Fin 1).

(** The smoothing of the default schema. *)
Definition default_smooth_config : SmoothConfig :=
  {| factor := Some (Fin 0.3); deadzone := Some (Fin 0.02) |}.

(** * Properties *)

(** ** Numbers *)

Lemma Qltb_lt (a b : Q) : Qltb a b = true <-> a < b.
Proof.
  unfold Qltb. destruct (Qcompare_spec a b) as [E | L | G]; split; intros H;
    try reflexivity; try discriminate; lra.
Qed.

Lemma Qltb_ge (a b : Q) : Qltb a b = false <-> b <= a.
Proof.
  unfold Qltb. destruct (Qcompare_spec a b) as [E | L | G]; split; intros H;
    try reflexivity; try discriminate; lra.
Qed.

Lemma is_zero_true (q : Q) : is_zero q = true <-> q == 0.
Proof. unfold is_zero. apply Qeq_bool_iff. Qed.

Lemma is_zero_false (q : Q) : is_zero q = false <-> ~ q == 0.
Proof.
  unfold is_zero. split.
  - intros H E. apply Qeq_bool_iff in E. congruence.
  - intros H. destruct (Qeq_bool q 0) eqn:E; [|reflexivity].
    apply Qeq_bool_iff in E. contradiction.
Qed.

(** ** SmoothProcessor *)










(** ** Output resolution *)

Lemma clamp01_Fin (q : Q) : within 0 1 (clamp01 (Fin q)).
Proof.
  unfold clamp01, Math_min, Math_max, ltb.
  destruct (Qltb q 1) eqn:E1.
  - apply Qltb_lt in E1. destruct (Qltb 0 q) eqn:E0; simpl.
    + apply Qltb_lt in E0. lra.
    + lra.
  - simpl. lra.
Qed.

Lemma clamp01_not_NaN (v : num) : v <> NaN -> within 0 1 (clamp01 v).
Proof.
  destruct v as [q| | |]; intros H.
  - apply clamp01_Fin.
  - simpl. lra.
  - simpl. lra.
  - congruence.
Qed.
















(** ** CalibrateProcessor *)

Lemma or_else_finite (o : option num) (d : Q) :
  finite_opt o -> exists q, or_else o (Fin d) = Fin q.
Proof.
  destruct o as [[q| | |]|]; simpl; try contradiction; intros _.
  - destruct (is_zero q); simpl; eauto.
  - eauto.
Qed.

Lemma clamp_symmetric_Fin (q : Q) :
  within (-1) 1 (Math_max (Fin (-1)) (Math_min (Fin 1) (Fin q))).
Proof.
  unfold Math_min, Math_max, ltb.
  destruct (Qltb q 1) eqn:E1.
  - apply Qltb_lt in E1. destruct (Qltb (-1) q) eqn:E0; simpl.
    + apply Qltb_lt in E0. lra.
    + lra.
  - simpl. lra.
Qed.

Lemma within_neg (a : num) : within (-1) 1 a -> within (-1) 1 (neg a).
Proof. destruct a; simpl; try contradiction. lra. Qed.

(** The rotation the processor stores is the one of steps 1 to 4, a
    reference rotation giving way to its default when unset or zero. *)
Lemma CalibrateProcessor_rotation (schema : Schema) (context : Context)
    (cal : Calibration) (ref : Reference) (ref_center : RefPoint) (hand_rotation : value) :
  ctx_derived context !! "hand-rotation" = Some hand_rotation ->
  ctx_calibration context = Some cal ->
  reference cal = Some ref ->
  center ref = Some ref_center ->
  ctx_calibrated (CalibrateProcessor_process schema context) !! "hand-rotation-calibrated"
  = Some (VNum (spec_rotation or_else ref (tuning cal) (to_number hand_rotation))).
Proof.
  intros Hd Hc Hr Hcen.
  unfold CalibrateProcessor_process. rewrite Hd, Hc. cbn [mbind option_bind].
  rewrite Hr. cbn [mbind option_bind]. rewrite Hcen.
  cbn [ctx_calibrated with_calibrated].
  assert (Hstored :
    forall m : gmap string value,
      match ctx_derived context !! "hand-center" with
      | Some hand_center =>
          if value_truthy hand_center
          then <["hand-center-calibrated" :=
                   VObj {[ "x" := mul (sub (undef_to_number (get_prop hand_center "x"))
                                           (Fin 0.5)) (Fin 2);
                           "y" := mul (sub (undef_to_number (get_prop hand_center "y"))
                                           (Fin 0.5)) (Fin 2) ]}]> m
          else m
      | None => m
      end !! "hand-rotation-calibrated" = m !! "hand-rotation-calibrated").
  { intros m. destruct (ctx_derived context !! "hand-center") as [hc|]; [|reflexivity].
    destruct (value_truthy hc); [|reflexivity].
    apply lookup_insert_ne. discriminate. }
  rewrite Hstored, lookup_insert_eq.
  unfold spec_rotation. rewrite Hcen. cbn [mbind option_bind].
  destruct (ltb _ (Fin 0)); reflexivity.
Qed.

Lemma div_Fin (a b : Q) : ~ b == 0 -> div (Fin a) (Fin b) = Fin (a / b).
Proof.
  intros Hb. unfold div. apply is_zero_false in Hb. rewrite Hb. reflexivity.
Qed.

Lemma sensitivity_finite (tuning : option Tuning) :
  finite_opt (sens_left <$> (tuning ≫= sensitivity)) ->
  finite_opt (sens_right <$> (tuning ≫= sensitivity)) ->
  exists l r,
    default {| sens_left := Fin 1; sens_right := Fin 1 |} (tuning ≫= sensitivity)
    = {| sens_left := Fin l; sens_right := Fin r |}.
Proof.
  destruct (tuning ≫= sensitivity) as [[[l| | |] [r| | |]]|]; simpl;
    intros Hl Hr; try contradiction; eauto.
Qed.

(** On a finite profile with a non-zero rotation range the stored rotation is
    the clamped, possibly negated, scaled quotient. *)
Lemma spec_rotation_Fin (ref : Reference) (tuning : option Tuning) (q : Q) :
  finite_profile ref tuning ->
  ~ thetaRange_of ref ≈ Fin 0 ->
  exists c p s l r,
    or_else (center ref ≫= rawRotation) (Fin 0) = Fin c /\
    thetaRange_of ref = Fin (p - s) /\ ~ p - s == 0 /\
    spec_rotation or_else ref tuning (Fin q) =
    (let n := (q - c) / ((p - s) / 2) in
     let clamped :=
       Math_max (Fin (-1)) (Math_min (Fin 1) (Fin (n * (if Qltb n 0 then l else r)))) in
     if default false (reverse <$> tuning) then neg clamped else clamped).
Proof.
  intros (Hc & Hs & Hp & Hl & Hr) Hrange.
  destruct (or_else_finite _ 0 Hc) as [c Ec].
  destruct (or_else_finite _ (-0.52) Hs) as [s Es].
  destruct (or_else_finite _ 0.52 Hp) as [p Ep].
  destruct (sensitivity_finite tuning Hl Hr) as [l [r Esens]].
  unfold thetaRange_of in *. rewrite Ep, Es in Hrange.
  exists c, p, s, l, r.
  split; [exact Ec|]. split; [rewrite Ep, Es; reflexivity|].
  split; [exact Hrange|].
  unfold spec_rotation. rewrite Ec, Ep, Es, Esens.
  change (sub (Fin p) (Fin s)) with (Fin (p - s)).
  change (sub (Fin q) (Fin c)) with (Fin (q - c)).
  rewrite (div_Fin (p - s) 2) by (intros H; discriminate H).
  rewrite (div_Fin (q - c) ((p - s) / 2)).
  - cbn [ltb sens_left sens_right mul].
    destruct (Qltb ((q - c) / ((p - s) / 2)) 0); reflexivity.
  - intros H. apply Hrange.
    assert (E : p - s == (p - s) / 2 * 2) by (field).
    simpl. rewrite E, H. ring.
Qed.

Lemma spec_rotation_bounded (ref : Reference) (tuning : option Tuning) (q : Q) :
  finite_profile ref tuning ->
  ~ thetaRange_of ref ≈ Fin 0 ->
  within (-1) 1 (spec_rotation or_else ref tuning (Fin q)).
Proof.
  intros Hfin Hrange.
  destruct (spec_rotation_Fin ref tuning q Hfin Hrange)
    as (c & p & s & l & r & _ & _ & _ & E).
  rewrite E. cbv zeta.
  destruct (default false (reverse <$> tuning)).
  - apply within_neg, clamp_symmetric_Fin.
  - apply clamp_symmetric_Fin.
Qed.

Lemma spec_rotation_at_center (ref : Reference) (tuning : option Tuning) (q : Q) :
  finite_profile ref tuning ->
  ~ thetaRange_of ref ≈ Fin 0 ->
  Fin q ≈ or_else (center ref ≫= rawRotation) (Fin 0) ->
  spec_rotation or_else ref tuning (Fin q) ≈ Fin 0.
Proof.
  intros Hfin Hrange Hq.
  destruct (spec_rotation_Fin ref tuning q Hfin Hrange)
    as (c & p & s & l & r & Ec & _ & Hps & E).
  rewrite E. rewrite Ec in Hq. simpl in Hq. cbv zeta.
  assert (Hn : (q - c) / ((p - s) / 2) == 0).
  { rewrite Hq. field. exact Hps. }
  set (n := (q - c) / ((p - s) / 2)) in *.
  assert (Hlt : Qltb n 0 = false) by (apply Qltb_ge; lra).
  rewrite Hlt.
  assert (Hz : n * r == 0) by (rewrite Hn; ring).
  set (z := n * r) in *.
  unfold Math_min, Math_max, ltb.
  assert (H1 : Qltb z 1 = true) by (apply Qltb_lt; lra).
  assert (H2 : Qltb (-1) z = true) by (apply Qltb_lt; lra).
  rewrite H1, H2.
  destruct (default false (reverse <$> tuning)); simpl; lra.
Qed.

Lemma nullish_or_else (o : option num) (d : num) :
  unset_or_nonzero o -> nullish o d = or_else o d.
Proof. destruct o as [v|]; simpl; [intros ->|]; reflexivity. Qed.

(** C2 (as amended). When [derived] holds 'hand-rotation' and the
    calibration has [reference.center], the processor stores under
    'hand-rotation-calibrated' the value of steps 1 to 4, where a pronate or
    supinate rotation gives way to 0.52 or -0.52 when it is unset or zero.
    With reference rotations that are unset or non-zero this is the value
    with the defaults taken only when unset.  On finite numbers and a
    non-zero rotation range the stored value lies in [-1,1], and it is 0 when
    the raw rotation equals the centre's. *)
Theorem CalibrateProcessor_rotation_calibrated (schema : Schema) (context : Context)
    (cal : Calibration) (ref : Reference) (ref_center : RefPoint) (hand_rotation : value) :
  ctx_derived context !! "hand-rotation" = Some hand_rotation ->
  ctx_calibration context = Some cal ->
  reference cal = Some ref ->
  center ref = Some ref_center ->
  ctx_calibrated (CalibrateProcessor_process schema context) !! "hand-rotation-calibrated"
    = Some (VNum (spec_rotation or_else ref (tuning cal) (to_number hand_rotation))) /\
  (unset_or_nonzero (pronate ref ≫= rawRotation) ->
   unset_or_nonzero (supinate ref ≫= rawRotation) ->
   spec_rotation or_else ref (tuning cal) (to_number hand_rotation)
   = spec_rotation nullish ref (tuning cal) (to_number hand_rotation)) /\
  (forall q,
     to_number hand_rotation = Fin q ->
     finite_profile ref (tuning cal) ->
     ~ thetaRange_of ref ≈ Fin 0 ->
     within (-1) 1 (spec_rotation or_else ref (tuning cal) (to_number hand_rotation)) /\
     (Fin q ≈ or_else (rawRotation ref_center) (Fin 0) ->
      spec_rotation or_else ref (tuning cal) (to_number hand_rotation) ≈ Fin 0)).
Proof.
  intros Hd Hc Hr Hcen. split; [|split].
  - exact (CalibrateProcessor_rotation schema context cal ref ref_center hand_rotation
             Hd Hc Hr Hcen).
  - intros Hp Hs. unfold spec_rotation.
    rewrite (nullish_or_else _ _ Hp), (nullish_or_else _ _ Hs). reflexivity.
  - intros q -> Hfin Hrange. split.
    + apply spec_rotation_bounded; assumption.
    + intros Hq. apply spec_rotation_at_center; try assumption.
      rewrite Hcen. exact Hq.
Qed.

(** The default calibration on a raw rotation of 0.52. *)
Lemma CalibrateProcessor_rotation_calibrated_witness :
  ctx_calibrated (CalibrateProcessor_process _getDefaultSchema sample_context)
    !! "hand-rotation-calibrated"
  = Some (VNum (spec_rotation or_else
                  {| center := Some {| rawRotation := Some (Fin 0); variance := Some (Fin 0.01) |};
                     supinate := Some {| rawRotation := Some (Fin (-0.52)); variance := Some (Fin 0.02) |};
                     pronate := Some {| rawRotation := Some (Fin 0.52); variance := Some (Fin 0.02) |} |}
                  (tuning default_calibration) (to_number (VNum (Fin 0.52))))).
Proof.
  exact (proj1 (CalibrateProcessor_rotation_calibrated _getDefaultSchema sample_context
                  default_calibration _ _ (VNum (Fin 0.52))
                  eq_refl eq_refl eq_refl eq_refl)).
Defined.

(** C2, counterexample. With the pronate reference stored as rotation 0, the
    supinate one as -0.5 and a raw rotation of 0.1, the range used is
    0.52 - (-0.5), not 0 - (-0.5): the stored value is 10/51, where the
    defaults taken only when unset give 0.4. *)
Lemma CalibrateProcessor_zero_pronate :
  exists stored,
    ctx_calibrated (CalibrateProcessor_process _getDefaultSchema zero_pronate_context)
      !! "hand-rotation-calibrated" = Some (VNum stored) /\
    stored ≈ Fin (10 # 51) /\
    spec_rotation nullish zero_pronate_reference (tuning zero_pronate_calibration)
      (Fin 0.1) ≈ Fin 0.4 /\
    ~ stored ≈ spec_rotation nullish zero_pronate_reference
                 (tuning zero_pronate_calibration) (Fin 0.1).
Proof.
  eexists. split; [|split; [|split]].
  - vm_compute. reflexivity.
  - vm_compute. reflexivity.
  - vm_compute. reflexivity.
  - vm_compute. discriminate.
Qed.

(** ** ProcessorPipeline *)

Lemma run_processors_snoc (processors : list Processor) (p : Processor) (context : Context) :
  run_processors (processors ++ [p]) context
  = run_stage (run_processors processors context) p.
Proof. unfold run_processors. rewrite foldl_app. reflexivity. Qed.

Lemma last_returned_snoc (initial : Context) (calls : list ProcessCall) (call : ProcessCall) :
  last_returned initial (calls ++ [call]) =
  match call_outcome call with
  | Returned context => context
  | Thrown => last_returned initial calls
  end.
Proof.
  unfold last_returned. rewrite omap_app.
  assert (Hone : omap returned_context [call] =
                 match call_outcome call with
                 | Returned context => [context]
                 | Thrown => []
                 end).
  { unfold returned_context. simpl. destruct (call_outcome call); reflexivity. }
  rewrite Hone. destruct (call_outcome call) as [context|].
  - rewrite last_snoc. reflexivity.
  - rewrite app_nil_r. reflexivity.
Qed.

(** What the loop establishes: one call per processor, in order; each call is
    handed the context of the last stage that returned; the processor's state
    afterwards is the one its call left. *)
Lemma run_processors_calls (processors : list Processor) (context : Context) :
  let r := run_processors processors context in
  length (snd (fst r)) = length processors /\
  length (snd r) = length processors /\
  fst (fst r) = last_returned context (snd r) /\
  (forall i p, processors !! i = Some p ->
     exists call p',
       snd r !! i = Some call /\
       snd (fst r) !! i = Some p' /\
       call_name call = proc_name p /\
       call_context call = last_returned context (take i (snd r)) /\
       proc_process p (proc_state p) (call_context call)
       = (call_outcome call, proc_state p')).
Proof.
  induction processors as [|p processors IH] using rev_ind; cbv zeta.
  - repeat split. intros i p Hp. inversion Hp.
  - rewrite run_processors_snoc.
    destruct (run_processors processors context) as [[current done] calls].
    cbv zeta in IH. cbn [fst snd] in IH.
    destruct IH as (Hdone & Hcalls & Hcurrent & Hstages).
    unfold run_stage.
    destruct (proc_process p (proc_state p) current) as [result st] eqn:Hrun.
    cbn [fst snd]. rewrite !length_app, Hdone, Hcalls. cbn [length].
    split; [reflexivity|]. split; [reflexivity|]. split.
    + rewrite last_returned_snoc. cbn [call_outcome].
      destruct result; [reflexivity | exact Hcurrent].
    + intros i q Hq. apply lookup_app_Some in Hq as [Hq | [Hlen Hq]].
      * destruct (Hstages i q Hq) as (call & q' & Hcall & Hq' & Hname & Hctx & Hproc).
        exists call, q'.
        assert (Hi : (i < length calls)%nat)
          by (apply lookup_lt_Some in Hcall; exact Hcall).
        rewrite !lookup_app_l by (rewrite ?Hdone, ?Hcalls; apply lookup_lt_Some in Hq; lia).
        rewrite take_app_le by lia.
        repeat split; assumption.
      * apply list_lookup_singleton_Some in Hq as [Hzero <-].
        assert (Hi : i = length processors) by lia. subst i.
        eexists; eexists.
        rewrite !lookup_app_r by lia.
        rewrite Hcalls, Hdone, Nat.sub_diag. cbn [lookup list_lookup].
        split; [reflexivity|]. split; [reflexivity|].
        cbn [call_name call_context call_outcome set_state proc_state].
        split; [reflexivity|]. split.
        -- rewrite <- Hcalls, take_app_length. exact Hcurrent.
        -- exact Hrun.
Qed.

Lemma processFrame_detected (a : Adapter) (data : Frame) :
  has_landmarks data = true ->
  framesProcessed (_stats (fst (_processFrame a data))) = S (framesProcessed (_stats a)) /\
  detectedFrames (_stats (fst (_processFrame a data))) = S (detectedFrames (_stats a)) /\
  snd (_processFrame a data)
  = snd (pipeline_process (schema a) (pipeline a) data (Some (calibration a))).
Proof.
  intros H. unfold _processFrame. rewrite H. cbn [negb].
  destruct (pipeline_process _ _ _ _) as [[context processors] calls].
  destruct (_emitOutputs _ _ _) as [context' sinks']. repeat split.
Qed.

(** C4. [ProcessorPipeline.process] always returns a context.  Every
    processor is called once, in order, whatever the earlier ones did; a call
    is handed the context returned by the last call that did not throw (the
    initial context if there is none), and the context returned at the end is
    chosen the same way.  A frame with its landmarks is counted as processed
    and as detected whether or not a processor throws. *)
Theorem pipeline_isolates_faults (schema : Schema) (processors : list Processor)
    (input : Frame) (calibration : option Calibration) :
  let initial := initial_context schema input calibration in
  let r := pipeline_process schema processors input calibration in
  length (snd r) = length processors /\
  fst (fst r) = last_returned initial (snd r) /\
  (forall i p, processors !! i = Some p ->
     exists call p',
       snd r !! i = Some call /\
       snd (fst r) !! i = Some p' /\
       call_name call = proc_name p /\
       call_context call = last_returned initial (take i (snd r)) /\
       proc_process p (proc_state p) (call_context call)
       = (call_outcome call, proc_state p')) /\
  (forall a data,
     has_landmarks data = true ->
     framesProcessed (_stats (fst (_processFrame a data))) = S (framesProcessed (_stats a)) /\
     detectedFrames (_stats (fst (_processFrame a data))) = S (detectedFrames (_stats a)) /\
     length (snd (_processFrame a data)) = length (pipeline a)).
Proof.
  cbv zeta. unfold pipeline_process.
  destruct (run_processors_calls processors (initial_context schema input calibration))
    as (_ & Hcalls & Hfinal & Hstages).
  split; [exact Hcalls|]. split; [exact Hfinal|]. split; [exact Hstages|].
  intros a data Hdata.
  destruct (processFrame_detected a data Hdata) as (Hp & Hd & Hc).
  split; [exact Hp|]. split; [exact Hd|].
  rewrite Hc. unfold pipeline_process.
  apply (run_processors_calls (pipeline a)).
Qed.

(** The pipeline Calibrate, base Processor (which throws), Smooth: all three
    are called, and the Smooth stage works on what Calibrate returned. *)
Example faulty_pipeline_runs_all :
  let r := pipeline_process _getDefaultSchema faulty_processors sample_frame None in
  call_name <$> snd r = ["CalibrateProcessor"; "Processor"; "SmoothProcessor"] /\
  (snd r !! 1%nat) ≫= returned_context = None /\
  ((snd r !! 2%nat) ≫= returned_context) = Some (fst (fst r)) /\
  is_Some (ctx_smoothed (fst (fst r)) !! "theta").
Proof.
  cbv zeta. repeat split; try (vm_compute; reflexivity).
  vm_compute. eexists. reflexivity.
Qed.

(** ** Frame processing and statistics *)

Lemma has_landmarks_false (data : Frame) :
  (landmarks data = None \/
   exists l, landmarks data = Some l /\ (length l < 21)%nat) ->
  has_landmarks data = false.
Proof.
  unfold has_landmarks. intros [-> | (l & -> & Hlen)]; [reflexivity|].
  apply negb_false_iff, Nat.ltb_lt. exact Hlen.
Qed.

(** C8. A frame whose landmarks are absent or fewer than 21 increments
    [framesProcessed] and records its timestamp; [detectedFrames] stays, no
    processor is called, the processors keep their states, and no sink
    receives anything. *)
Theorem processFrame_skips_sparse_frames (a : Adapter) (data : Frame) :
  (landmarks data = None \/
   exists l, landmarks data = Some l /\ (length l < 21)%nat) ->
  let r := _processFrame a data in
  framesProcessed (_stats (fst r)) = S (framesProcessed (_stats a)) /\
  lastTimestamp (_stats (fst r)) = timestamp data /\
  detectedFrames (_stats (fst r)) = detectedFrames (_stats a) /\
  snd r = [] /\
  pipeline (fst r) = pipeline a /\
  sinks (fst r) = sinks a /\
  calibration (fst r) = calibration a.
Proof.
  intros Hsparse. apply has_landmarks_false in Hsparse.
  cbv zeta. unfold _processFrame. rewrite Hsparse. cbn [negb].
  repeat split.
Qed.

(** A frame without landmarks on a new adapter. *)
Lemma processFrame_skips_sparse_frames_witness :
  framesProcessed (_stats (fst (_processFrame sample_adapter empty_frame))) = 1%nat /\
  detectedFrames (_stats (fst (_processFrame sample_adapter empty_frame))) = 0%nat /\
  snd (_processFrame sample_adapter empty_frame) = [] /\
  sinks (fst (_processFrame sample_adapter empty_frame)) = [sample_sink].
Proof.
  destruct (processFrame_skips_sparse_frames sample_adapter empty_frame
              (or_introl eq_refl))
    as (Hp & _ & Hd & Hcalls & _ & Hsinks & _).
  split; [exact Hp|]. split; [exact Hd|]. split; [exact Hcalls | exact Hsinks].
Defined.

Lemma processFrame_counters (a : Adapter) (data : Frame) :
  counters_ordered a -> counters_ordered (fst (_processFrame a data)).
Proof.
  unfold counters_ordered. intros H.
  destruct (has_landmarks data) eqn:Hl.
  - destruct (processFrame_detected a data Hl) as (-> & -> & _). lia.
  - unfold _processFrame. rewrite Hl. simpl. lia.
Qed.

Lemma step_counters (a : Adapter) (op : Op) :
  counters_ordered a -> counters_ordered (step a op).
Proof.
  intros H. destruct op as [started | data |]; simpl.
  - unfold start. destruct (_running a); [exact H|].
    destruct started; exact H.
  - destruct (_running a); [apply processFrame_counters|]; exact H.
  - unfold stop. destruct (_running a); exact H.
Qed.

Lemma run_counters (ops : list Op) :
  forall a, counters_ordered a -> counters_ordered (run a ops).
Proof.
  induction ops as [|op ops IH]; intros a H; [exact H|].
  apply IH, step_counters, H.
Qed.

Lemma count_nonneg (n : nat) : 0 <= inject_Z (Z.of_nat n).
Proof. change 0 with (inject_Z 0). rewrite <- Zle_Qle. lia. Qed.

Lemma count_le (n m : nat) :
  (n <= m)%nat -> inject_Z (Z.of_nat n) <= inject_Z (Z.of_nat m).
Proof. intros H. rewrite <- Zle_Qle. lia. Qed.

Lemma count_zero (n : nat) : inject_Z (Z.of_nat n) == 0 <-> n = 0%nat.
Proof.
  change 0 with (inject_Z 0). rewrite inject_Z_injective. lia.
Qed.

(** The rate reported for counters in order. *)
Lemma detectionRate_spec (a : Adapter) :
  counters_ordered a ->
  within 0 1 (detectionRate (getStats a)) /\
  (detectionRate (getStats a) ≈ Fin 0 <-> detectedFrames (_stats a) = 0%nat) /\
  (framesProcessed (_stats a) = 0%nat -> detectionRate (getStats a) = Fin 0).
Proof.
  unfold counters_ordered, getStats. cbn [detectionRate].
  set (d := detectedFrames (_stats a)). set (p := framesProcessed (_stats a)).
  intros Hle. destruct (0 <? p)%nat eqn:Hp.
  - apply Nat.ltb_lt in Hp. unfold num_of_count.
    pose proof (count_nonneg d) as Hd0. pose proof (count_le d p Hle) as Hdp.
    assert (Hp0 : 0 < inject_Z (Z.of_nat p)).
    { change 0 with (inject_Z 0). rewrite <- Zlt_Qlt. lia. }
    rewrite div_Fin by lra. split; [|split].
    + simpl. split.
      * apply Qle_shift_div_l; [exact Hp0 | lra].
      * apply Qle_shift_div_r; [exact Hp0 | lra].
    + simpl. rewrite <- count_zero. split; intros H.
      * assert (E : inject_Z (Z.of_nat d)
                    == inject_Z (Z.of_nat d) / inject_Z (Z.of_nat p) * inject_Z (Z.of_nat p))
          by (field; lra).
        rewrite E, H. ring.
      * rewrite H. field. lra.
    + intros H0. lia.
  - apply Nat.ltb_ge in Hp. assert (d = 0%nat) by lia.
    split; [simpl; lra|]. split; [|reflexivity].
    simpl. split; intros _; [assumption | reflexivity].
Qed.

(** C10 (as amended). After any sequence of start, delivered frames and stop
    on a new adapter, [detectedFrames] is at most [framesProcessed], the
    detection rate lies in [0,1], it is 0 exactly when no frame was
    detected, and in particular when no frame was processed. *)
Theorem stats_invariant (schema : Schema) (sinks : list Sink)
    (calibration : option Calibration) (processors : list Processor) (ops : list Op) :
  let a := run (new_adapter schema sinks calibration processors) ops in
  (detectedFrames (_stats a) <= framesProcessed (_stats a))%nat /\
  within 0 1 (detectionRate (getStats a)) /\
  (detectionRate (getStats a) ≈ Fin 0 <-> detectedFrames (_stats a) = 0%nat) /\
  (framesProcessed (_stats a) = 0%nat -> detectionRate (getStats a) = Fin 0).
Proof.
  cbv zeta.
  assert (H : counters_ordered (run (new_adapter schema sinks calibration processors) ops)).
  { apply run_counters. unfold counters_ordered. simpl. lia. }
  split; [exact H|]. apply detectionRate_spec, H.
Qed.

(** C10, counterexample. After a start and one frame without landmarks, a
    frame has been processed and the detection rate is 0 all the same. *)
Lemma detectionRate_zero_after_a_frame :
  framesProcessed (_stats (run sample_adapter [OpStart true; OpFrame empty_frame])) = 1%nat /\
  detectionRate (getStats (run sample_adapter [OpStart true; OpFrame empty_frame])) ≈ Fin 0.
Proof. split; vm_compute; reflexivity. Qed.

(** ** Calibration API *)

Lemma ref_get_set (r : Reference) (point other : RefName) (rec : RefPoint) :
  ref_get (ref_set r point rec) other
  = if bool_decide (other = point) then Some rec else ref_get r other.
Proof. destruct point, other; reflexivity. Qed.

(** C6 (as amended). When the pipeline holds a processor named
    SmoothProcessor whose [theta] is neither 0 nor NaN,
    [captureReferencePoint(point)] writes [{rawRotation: theta, variance:
    0.02}] into [calibration.reference[point]], leaves the other reference
    points, the tuning and the processors as they were, and returns that
    record.  When [theta] is 0 (or NaN) it returns [null] and changes
    nothing. *)
Theorem captureReferencePoint_reads_theta (a : Adapter) (point : RefName)
    (smoothProc : Processor) (theta : num) :
  getProcessor (pipeline a) "SmoothProcessor" = Some smoothProc ->
  proc_state smoothProc !! "theta" = Some theta ->
  let r := captureReferencePoint a point in
  (truthy theta = true ->
   fst r = Some (captured theta) /\
   reference_point (calibration (snd r)) point = Some (captured theta) /\
   (forall other, other <> point ->
      reference_point (calibration (snd r)) other
      = reference_point (calibration a) other) /\
   tuning (calibration (snd r)) = tuning (calibration a) /\
   pipeline (snd r) = pipeline a /\
   _stats (snd r) = _stats a) /\
  (truthy theta = false -> r = (None, a)).
Proof.
  intros Hproc Htheta. cbv zeta. unfold captureReferencePoint.
  rewrite Hproc, Htheta. split; intros Htruthy; rewrite Htruthy; cbn [negb].
  - cbn [fst snd calibration pipeline _stats].
    unfold reference_point, with_reference. cbn [reference tuning mbind option_bind].
    rewrite ref_get_set, bool_decide_eq_true_2 by reflexivity.
    split; [reflexivity|]. split; [reflexivity|].
    split; [|repeat split].
    intros other Hother. rewrite ref_get_set, bool_decide_eq_false_2 by exact Hother.
    destruct (reference (calibration a)) as [ref|]; [reflexivity|].
    destruct other; reflexivity.
  - reflexivity.
Qed.

(** Capturing the supinate point at a rotation of 0.25. *)
Lemma captureReferencePoint_reads_theta_witness :
  fst (captureReferencePoint rotated_adapter Supinate) = Some (captured (Fin 0.25)) /\
  reference_point (calibration (snd (captureReferencePoint rotated_adapter Supinate)))
    Supinate = Some (captured (Fin 0.25)).
Proof.
  destruct (captureReferencePoint_reads_theta rotated_adapter Supinate
              (set_state (SmoothProcessor {| factor := Some (Fin 0.3);
                                             deadzone := Some (Fin 0.02) |})
                         (<["theta" := Fin 0.25]> smooth_initial_state))
              (Fin 0.25) eq_refl eq_refl) as [Hcapture _].
  destruct (Hcapture eq_refl) as (Hret & Hstored & _).
  split; [exact Hret | exact Hstored].
Defined.

(** C6, counterexample. On a new adapter the Smooth processor is there and
    its [theta] is 0: the capture returns [null] and writes nothing. *)
Lemma captureReferencePoint_at_zero :
  (exists smoothProc,
     getProcessor (pipeline sample_adapter) "SmoothProcessor" = Some smoothProc /\
     proc_state smoothProc !! "theta" = Some (Fin 0)) /\
  captureReferencePoint sample_adapter Center = (None, sample_adapter).
Proof.
  split.
  - eexists. split; reflexivity.
  - reflexivity.
Qed.

Lemma validateCalibration_spec (a : Adapter) :
  let ref := default empty_reference (reference (calibration a)) in
  validateCalibration a
  = spec_validation (or_else (supinate ref ≫= rawRotation) (Fin 0))
                    (or_else (pronate ref ≫= rawRotation) (Fin 0))
                    (or_else (center ref ≫= rawRotation) (Fin 0)).
Proof.
  cbv zeta. unfold validateCalibration, spec_validation, spec_checks.
  set (s := or_else (supinate _ ≫= rawRotation) (Fin 0)).
  set (p := or_else (pronate _ ≫= rawRotation) (Fin 0)).
  set (c := or_else (center _ ≫= rawRotation) (Fin 0)).
  destruct (ltb (sub p s) (Fin 0.3));
    destruct (gtb (Math_abs (sub (Math_abs s) (Math_abs p))) (Fin 0.2));
    destruct (gtb (Math_abs c) (Fin 0.1)); reflexivity.
Qed.

Lemma or_else_number (q : Q) : or_else (Some (Fin q)) (Fin 0) ≈ Fin q.
Proof.
  unfold or_else, truthy. destruct (is_zero q) eqn:E; simpl.
  - apply is_zero_true in E. lra.
  - lra.
Qed.

(** C7. [validateCalibration] starts from quality 1 and runs three
    independent checks: range below 0.3 (issue, times 0.5), asymmetry above
    0.2 (issue, times 0.8), centre offset above 0.1 (issue, times 0.9), each
    rotation read as 0 when unset; the result is valid exactly when no issue
    was recorded.  Reference (-0.6, 0.6, 0) is valid with quality 1;
    reference (-0.1, 0.1, 0) has the one issue of a range too small and
    quality 0.5. *)
Theorem validateCalibration_checks (a : Adapter) :
  let ref := default empty_reference (reference (calibration a)) in
  validateCalibration a
  = spec_validation (or_else (supinate ref ≫= rawRotation) (Fin 0))
                    (or_else (pronate ref ≫= rawRotation) (Fin 0))
                    (or_else (center ref ≫= rawRotation) (Fin 0)) /\
  (forall q, or_else (Some (Fin q)) (Fin 0) ≈ Fin q) /\
  (valid (validateCalibration a) = true <-> issues (validateCalibration a) = []) /\
  validateCalibration (adapter_with_reference (-0.6) 0.6 0)
  = {| valid := true; issues := []; quality := Fin 1 |} /\
  valid (validateCalibration (adapter_with_reference (-0.1) 0.1 0)) = false /\
  issues (validateCalibration (adapter_with_reference (-0.1) 0.1 0))
  = ["Rotation range too small"] /\
  quality (validateCalibration (adapter_with_reference (-0.1) 0.1 0)) ≈ Fin 0.5.
Proof.
  cbv zeta. split; [apply validateCalibration_spec|].
  split; [apply or_else_number|]. split.
  - pose proof (validateCalibration_spec a) as E. cbv zeta in E. rewrite E.
    unfold spec_validation. cbn [valid issues]. apply bool_decide_eq_true.
  - repeat split; vm_compute; reflexivity.
Qed.

(** C9. An input that does not parse leaves the adapter as it was and is
    answered with [false]; an input that parses is answered with [true] and
    the calibration becomes the schema's, each top-level property replaced
    by the profile's where the profile has one. *)
Theorem importCalibration_all_or_nothing (JSON_parse : string -> option Profile)
    (a : Adapter) (json : string) :
  (JSON_parse json = None -> importCalibration JSON_parse a json = (false, a)) /\
  (forall profile,
     JSON_parse json = Some profile ->
     let r := importCalibration JSON_parse a json in
     let base := schema_calibration (schema a) in
     fst r = true /\
     calibration (snd r) = Object_assign base profile /\
     reference (calibration (snd r))
     = match profile_reference profile with
       | Some r => r
       | None => base ≫= reference
       end /\
     tuning (calibration (snd r))
     = match profile_tuning profile with
       | Some t => t
       | None => base ≫= tuning
       end /\
     (forall k, cal_extra (calibration (snd r)) !! k
                = match profile_extra profile !! k with
                  | Some v => Some v
                  | None => base ≫= fun c => cal_extra c !! k
                  end) /\
     pipeline (snd r) = pipeline a /\
     sinks (snd r) = sinks a /\
     _stats (snd r) = _stats a).
Proof.
  unfold importCalibration. split.
  - intros ->. reflexivity.
  - intros profile ->. cbv zeta. cbn [fst snd setCalibration calibration].
    split; [reflexivity|]. split; [reflexivity|].
    unfold Object_assign. cbn [reference tuning cal_extra].
    destruct (schema_calibration (schema a)) as [base|];
      cbn [default from_option id mbind option_bind];
      repeat apply conj; try reflexivity.
    + intros k. rewrite lookup_union.
      destruct (profile_extra profile !! k), (cal_extra base !! k); reflexivity.
    + intros k. rewrite lookup_union. cbn [cal_extra empty_calibration].
      rewrite lookup_empty.
        destruct (profile_extra profile !! k); reflexivity.
Qed.

(** ** Derivation library *)

(** The distance derivation rescales and clamps at both ends. *)
Lemma distance_normalized (Math_sqrt : num -> num) (landmarks : list Point.t)
    (config : DistanceConfig) (schema : Schema) (normalize : Normalize) (d : num) :
  dist_normalize config = Some normalize ->
  distance Math_sqrt landmarks config schema = Some d ->
  exists raw, d = spec_normalize normalize raw.
Proof.
  intros Hn. unfold distance. rewrite Hn.
  destruct (mjoin (landmark_at landmarks schema (dist_from config))) as [from|];
    [|discriminate].
  destruct (mjoin (landmark_at landmarks schema (dist_to config))) as [to|];
    [|discriminate].
  cbn [mbind option_bind]. intros [= <-]. eexists. reflexivity.
Qed.

(** The triangle-area derivation rescales and clamps at the upper end only. *)
Lemma triangleArea_normalized (landmarks : list Point.t) (config : TriangleAreaConfig)
    (schema : Schema) (normalize : Normalize) (area : num) :
  area_normalize config = Some normalize ->
  triangleArea landmarks config schema = Some area ->
  exists raw,
    area = Math_min (or_else (outputMax normalize) (Fin 1))
             (mul (div (sub raw (norm_min normalize))
                       (sub (norm_max normalize) (norm_min normalize)))
                  (or_else (outputMax normalize) (Fin 1))).
Proof.
  intros Hn. unfold triangleArea. rewrite Hn.
  destruct (mapM (landmark_at landmarks schema) (points config)) as [pts|];
    [|discriminate].
  cbn [mbind option_bind].
  destruct (mjoin (pts !! 0%nat)) as [a|]; [|discriminate].
  destruct (mjoin (pts !! 1%nat)) as [b|]; [|discriminate].
  destruct (mjoin (pts !! 2%nat)) as [c|]; [|discriminate].
  cbn [mbind option_bind]. intros [= <-]. eexists. reflexivity.
Qed.

(** C5. With the three finger tips at one point the triangle has area 0, and
    the default finger-spread derivation (min 0.001, max 0.05, outputMax 1)
    returns -1/49: the value is not brought up to 0, as the rescale-and-clamp
    of the distance derivation would have it. *)
Theorem triangleArea_below_zero :
  exists area,
    triangleArea sample_landmarks default_finger_spread _getDefaultSchema = Some area /\
    area ≈ Fin (-1 # 49) /\
    (forall normalize,
       area_normalize default_finger_spread = Some normalize ->
       spec_normalize normalize (Fin 0) ≈ Fin 0).
Proof.
  eexists. split; [vm_compute; reflexivity|]. split; [vm_compute; reflexivity|].
  intros normalize [= <-]. vm_compute. reflexivity.
Qed.

(** * Further properties *)

(** ** SmoothProcessor and FlickDetectProcessor *)


Lemma state_get_insert_eq (st : gmap string num) (k : string) (v : num) :
  state_get (<[k := v]> st) k = v.
Proof. unfold state_get. rewrite lookup_insert_eq. reflexivity. Qed.

Lemma state_get_insert_ne (st : gmap string num) (k k' : string) (v : num) :
  k <> k' -> state_get (<[k := v]> st) k' = state_get st k'.
Proof. intros H. unfold state_get. rewrite lookup_insert_ne by exact H. reflexivity. Qed.

(** What one call of [FlickDetectProcessor.process] leaves behind. *)
Lemma FlickDetectProcessor_process_state (config : FlickConfig) (st : gmap string num)
    (context : Context) :
  let theta := nullish (to_number <$> ctx_smoothed context !! "theta") (Fin 0) in
  let acc := add (mul (state_get st "velocity") (nullish (decay config) (Fin 0.85)))
                 (sub theta (state_get st "lastTheta")) in
  let r := FlickDetectProcessor_process config st context in
  state_get (snd r) "lastTheta" = theta /\
  state_get (snd r) "velocity" = acc /\
  ctx_gestures (fst r) !! "flick"
  = Some {| amount := Math_min (Fin 1)
                        (div (Math_abs acc) (nullish (threshold config) (Fin 0.15)));
            direction := Math_sign acc;
            velocity := acc |} /\
  (forall k, k <> "flick" -> ctx_gestures (fst r) !! k = ctx_gestures context !! k).
Proof.
  cbv zeta. unfold FlickDetectProcessor_process.
  cbn [fst snd ctx_gestures with_gestures].
  rewrite !state_get_insert_eq.
  rewrite !(state_get_insert_ne _ "lastTheta" "velocity") by discriminate.
  rewrite (state_get_insert_ne _ "velocity" "lastTheta") by discriminate.
  rewrite state_get_insert_eq, lookup_insert_eq.
  repeat split. intros k Hk. apply lookup_insert_ne. congruence.
Qed.

(** X2. On finite numbers and a positive threshold, the flick of a frame has
    an amount in [0,1] that is 0 exactly when the accumulated velocity is 0,
    and a direction of 1, -1 or 0 according to the sign of that velocity; the
    other gestures of the context are kept. *)
Theorem flick_amount_and_direction (config : FlickConfig) (st : gmap string num)
    (context : Context) (theta last v d th : Q) :
  nullish (to_number <$> ctx_smoothed context !! "theta") (Fin 0) = Fin theta ->
  state_get st "lastTheta" = Fin last ->
  state_get st "velocity" = Fin v ->
  nullish (decay config) (Fin 0.85) = Fin d ->
  nullish (threshold config) (Fin 0.15) = Fin th ->
  0 < th ->
  let r := FlickDetectProcessor_process config st context in
  let acc := v * d + (theta - last) in
  exists flick a,
    ctx_gestures (fst r) !! "flick" = Some flick /\
    velocity flick = Fin acc /\
    amount flick = Fin a /\ 0 <= a <= 1 /\ (a == 0 <-> acc == 0) /\
    direction flick
    = (if Qltb 0 acc then Fin 1 else if Qltb acc 0 then Fin (-1) else Fin 0) /\
    (forall k, k <> "flick" -> ctx_gestures (fst r) !! k = ctx_gestures context !! k).
Proof.
  intros Htheta Hlast Hv Hd Hth Hpos. cbv zeta.
  destruct (FlickDetectProcessor_process_state config st context)
    as (_ & _ & Hflick & Hothers).
  rewrite Htheta, Hlast, Hv, Hd, Hth in Hflick.
  change (add (mul (Fin v) (Fin d)) (sub (Fin theta) (Fin last)))
    with (Fin (v * d + (theta - last))) in Hflick.
  set (acc := v * d + (theta - last)) in *.
  cbn [Math_abs] in Hflick. rewrite div_Fin in Hflick by lra.
  pose proof (Qabs_nonneg acc) as Habs.
  assert (Hquot : 0 <= Qabs acc / th) by (apply Qle_shift_div_l; lra).
  assert (Hzero : Qabs acc / th == 0 <-> acc == 0).
  { split; intros H.
    - assert (E : Qabs acc == Qabs acc / th * th) by (field; lra).
      rewrite H in E. assert (E0 : Qabs acc == 0) by lra.
      destruct (Qabs_Qle_condition acc 0) as [Hle _].
      assert (Hb : - 0 <= acc <= 0) by (apply Hle; lra). lra.
    - rewrite H. change (Qabs 0) with 0. field. lra. }
  eexists. exists (if Qltb (Qabs acc / th) 1 then Qabs acc / th else 1).
  split; [exact Hflick|]. cbn [velocity amount direction Math_sign].
  split; [reflexivity|]. split.
  - unfold Math_min, ltb. destruct (Qltb (Qabs acc / th) 1); reflexivity.
  - split; [|split; [|split; [reflexivity | exact Hothers]]].
    + destruct (Qltb (Qabs acc / th) 1) eqn:E.
      * apply Qltb_lt in E. lra.
      * lra.
    + destruct (Qltb (Qabs acc / th) 1) eqn:E.
      * exact Hzero.
      * apply Qltb_ge in E. split; intros H; [lra|].
        apply Hzero in H. lra.
Qed.

(** The default flick detection on a first frame with the hand at 0.3. *)
Lemma flick_amount_and_direction_witness :
  exists flick,
    ctx_gestures (fst (FlickDetectProcessor_process default_flick_config
                         flick_initial_state turning_context)) !! "flick" = Some flick /\
    velocity flick = Fin (0 * 0.85 + (0.3 - 0)).
Proof.
  destruct (flick_amount_and_direction default_flick_config flick_initial_state
              turning_context 0.3 0 0 0.85 0.15
              eq_refl eq_refl eq_refl eq_refl eq_refl eq_refl)
    as (flick & a & Hflick & Hvel & _).
  exists flick. split; [exact Hflick | exact Hvel].
Defined.

(** X3. Once the smoothed rotation stops changing (it equals the last one
    seen), every further frame multiplies the accumulated velocity by the
    decay: after [n] frames it is the initial one times decay to the [n]. *)
Theorem flick_velocity_decays (config : FlickConfig) (context : Context)
    (st : gmap string num) (theta last v d : Q) (n : nat) :
  nullish (to_number <$> ctx_smoothed context !! "theta") (Fin 0) = Fin theta ->
  state_get st "lastTheta" = Fin last ->
  last == theta ->
  state_get st "velocity" = Fin v ->
  nullish (decay config) (Fin 0.85) = Fin d ->
  exists vn,
    state_get (flick_state_after config context st n) "velocity" = Fin vn /\
    vn == decayed v d n.
Proof.
  intros Htheta Hlast Heq Hv Hd.
  assert (H : exists ln vn,
             state_get (flick_state_after config context st n) "lastTheta" = Fin ln /\
             ln == theta /\
             state_get (flick_state_after config context st n) "velocity" = Fin vn /\
             vn == decayed v d n).
  { induction n as [|n (ln & vn & Hl & El & Hvn & Evn)].
    - exists last, v. split; [exact Hlast|]. split; [exact Heq|].
      split; [exact Hv | reflexivity].
    - change (flick_state_after config context st (S n))
        with (snd (FlickDetectProcessor_process config
                     (flick_state_after config context st n) context)).
      destruct (FlickDetectProcessor_process_state config
                  (flick_state_after config context st n) context)
        as (Hl' & Hv' & _).
      rewrite Hl', Hv', Htheta, Hl, Hvn, Hd.
      exists theta, (vn * d + (theta - ln)).
      split; [reflexivity|]. split; [reflexivity|]. split; [reflexivity|].
      cbn [decayed]. rewrite El, Evn. ring. }
  destruct H as (ln & vn & _ & _ & Hvn & Evn). exists vn. split; assumption.
Qed.

(** A hand that came to rest at 0.3 with an accumulated velocity of 0.2. *)
Lemma flick_velocity_decays_witness :
  exists vn,
    state_get (flick_state_after default_flick_config turning_context
                 {[ "lastTheta" := Fin 0.3; "velocity" := Fin 0.2 ]} 2) "velocity"
    = Fin vn /\
    vn == decayed 0.2 0.85 2.
Proof.
  assert (E : 0.3 == 0.3) by reflexivity.
  exact (flick_velocity_decays default_flick_config turning_context
           {[ "lastTheta" := Fin 0.3; "velocity" := Fin 0.2 ]} 0.3 0.3 0.2 0.85 2
           eq_refl eq_refl E eq_refl eq_refl).
Defined.

(** ** Output emission *)




(** ** CalibrateProcessor, the rest *)

(** X6. [CalibrateProcessor.process] changes nothing of the context but
    [calibrated], which it rebuilds from [derived]: every derived value is
    passed through under its own key, the two keys the processor writes
    apart; and without a derived 'hand-rotation' or without a centre
    reference no rotation is written. *)
Theorem CalibrateProcessor_passes_through (schema : Schema) (context : Context) :
  let context' := CalibrateProcessor_process schema context in
  with_calibrated context' (ctx_calibrated context) = context /\
  (forall k, k <> "hand-rotation-calibrated" -> k <> "hand-center-calibrated" ->
     ctx_calibrated context' !! k = ctx_derived context !! k) /\
  (ctx_derived context !! "hand-rotation" = None \/ effective_center schema context = None ->
   ctx_calibrated context' !! "hand-rotation-calibrated"
   = ctx_derived context !! "hand-rotation-calibrated").
Proof.
  cbv zeta. unfold CalibrateProcessor_process, effective_center.
  cbn [ctx_calibrated with_calibrated].
  set (calibration := match ctx_calibration context with
                      | Some c => Some c
                      | None => schema_calibration schema
                      end).
  split; [destruct context; reflexivity|]. split.
  - intros k Hr Hc.
    destruct (ctx_derived context !! "hand-center") as [hc|];
      [destruct (value_truthy hc)|];
      rewrite ?(lookup_insert_ne _ "hand-center-calibrated" k) by congruence;
      destruct (ctx_derived context !! "hand-rotation") as [hr|];
      try reflexivity;
      destruct ((calibration ≫= reference) ≫= center); try reflexivity;
      apply lookup_insert_ne; congruence.
  - intros Hnone.
    assert (Hskip : forall m : gmap string value,
      match ctx_derived context !! "hand-center" with
      | Some hand_center =>
          if value_truthy hand_center
          then <["hand-center-calibrated" :=
                   VObj {[ "x" := mul (sub (undef_to_number (get_prop hand_center "x"))
                                           (Fin 0.5)) (Fin 2);
                           "y" := mul (sub (undef_to_number (get_prop hand_center "y"))
                                           (Fin 0.5)) (Fin 2) ]}]> m
          else m
      | None => m
      end !! "hand-rotation-calibrated" = m !! "hand-rotation-calibrated").
    { intros m. destruct (ctx_derived context !! "hand-center") as [hc|]; [|reflexivity].
      destruct (value_truthy hc); [|reflexivity].
      apply lookup_insert_ne. discriminate. }
    rewrite Hskip. destruct Hnone as [-> | ->]; [reflexivity|].
    destruct (ctx_derived context !! "hand-rotation"); reflexivity.
Qed.

(** X7. A derived 'hand-center' with finite [x] and [y] is stored under
    'hand-center-calibrated' as the object of [2x - 1] and [2y - 1] and
    nothing else; coordinates in [0,1] land in [-1,1]. *)
Theorem CalibrateProcessor_hand_center (schema : Schema) (context : Context)
    (fields : gmap string num) (x y : Q) :
  ctx_derived context !! "hand-center" = Some (VObj fields) ->
  fields !! "x" = Some (Fin x) ->
  fields !! "y" = Some (Fin y) ->
  exists x' y',
    ctx_calibrated (CalibrateProcessor_process schema context) !! "hand-center-calibrated"
    = Some (VObj {[ "x" := Fin x'; "y" := Fin y' ]}) /\
    x' == 2 * x - 1 /\ y' == 2 * y - 1 /\
    (0 <= x <= 1 -> -1 <= x' <= 1) /\
    (0 <= y <= 1 -> -1 <= y' <= 1).
Proof.
  intros Hc Hx Hy. unfold CalibrateProcessor_process.
  cbn [ctx_calibrated with_calibrated]. rewrite Hc.
  cbn [value_truthy get_prop]. rewrite Hx, Hy, lookup_insert_eq.
  exists ((x - 0.5) * 2), ((y - 0.5) * 2).
  split; [reflexivity|]. split; [ring|]. split; [ring|]. split; intros; lra.
Qed.

(** The centre of the hand three quarters across the image. *)
Lemma CalibrateProcessor_hand_center_witness :
  exists x' y',
    ctx_calibrated (CalibrateProcessor_process _getDefaultSchema centred_context)
      !! "hand-center-calibrated"
    = Some (VObj {[ "x" := Fin x'; "y" := Fin y' ]}) /\
    x' == 2 * 0.75 - 1 /\ y' == 2 * 0.5 - 1.
Proof.
  destruct (CalibrateProcessor_hand_center _getDefaultSchema centred_context
              {[ "x" := Fin 0.75; "y" := Fin 0.5 ]} 0.75 0.5 eq_refl eq_refl eq_refl)
    as (x' & y' & Hstored & Ex & Ey & _).
  exists x', y'. split; [exact Hstored|]. split; assumption.
Defined.

(** ** ExtractProcessor and the derivation library *)

Lemma foldl_extract_thrown (table : gmap string Deriver) (landmarks : list Point.t)
    (schema : Schema) (entries : list (string * DeriveDef)) :
  foldl (extract_entry table landmarks schema) None entries = None.
Proof. induction entries as [|entry entries IH]; [reflexivity | exact IH]. Qed.

Lemma foldl_extract_throws (table : gmap string Deriver) (landmarks : list Point.t)
    (schema : Schema) (entries : list (string * DeriveDef)) :
  forall (acc : option (gmap string value)) (entry : string * DeriveDef),
    entry ∈ entries ->
    computeDerived table landmarks (snd entry) schema = None ->
    foldl (extract_entry table landmarks schema) acc entries = None.
Proof.
  induction entries as [|e entries IH]; intros acc entry Hin Hthrow.
  - inversion Hin.
  - cbn [foldl]. apply elem_of_cons in Hin as [<- | Hin].
    + unfold extract_entry at 2. rewrite Hthrow.
      destruct acc; cbn [mbind option_bind]; apply foldl_extract_thrown.
    + apply (IH _ entry); assumption.
Qed.

Lemma foldl_extract_sound (table : gmap string Deriver) (landmarks : list Point.t)
    (schema : Schema) (entries : list (string * DeriveDef)) :
  forall (acc result : gmap string value),
    foldl (extract_entry table landmarks schema) (Some acc) entries = Some result ->
    forall k v, result !! k = Some v ->
      acc !! k = Some v \/
      exists def, (k, def) ∈ entries /\
                  computeDerived table landmarks def schema = Some (Some v).
Proof.
  induction entries as [|[name def] entries IH]; intros acc result Hfold k v Hk.
  - cbn [foldl] in Hfold. injection Hfold as <-. left. exact Hk.
  - cbn [foldl] in Hfold. unfold extract_entry at 2 in Hfold.
    cbn [mbind option_bind fst snd] in Hfold.
    destruct (computeDerived table landmarks def schema) as [[value|]|] eqn:Hdef;
      cbn [mbind option_bind] in Hfold.
    + destruct (IH _ _ Hfold k v Hk) as [Hacc | (def' & Hin & Hdef')].
      * destruct (decide (name = k)) as [-> | Hne].
        -- rewrite lookup_insert_eq in Hacc. injection Hacc as ->.
           right. exists def. split; [apply elem_of_cons; left; reflexivity | exact Hdef].
        -- rewrite lookup_insert_ne in Hacc by exact Hne. left. exact Hacc.
      * right. exists def'. split; [apply elem_of_cons; right; exact Hin | exact Hdef'].
    + destruct (IH _ _ Hfold k v Hk) as [Hacc | (def' & Hin & Hdef')].
      * left. exact Hacc.
      * right. exists def'. split; [apply elem_of_cons; right; exact Hin | exact Hdef'].
    + rewrite foldl_extract_thrown in Hfold. discriminate.
Qed.

(** X8. [ExtractProcessor.process] returns the context as it is when the
    frame has fewer than 21 landmarks.  On a full frame it replaces [derived]
    and nothing else, and every value it stores under a name is what
    [computeDerived] returned for an entry of [schema.derived] of that name
    (an unknown type, which gives [null], stores nothing).  If the deriver of
    any entry throws, the whole call throws. *)
Theorem ExtractProcessor_derives (table : gmap string Deriver) (schema : Schema)
    (rest : SchemaRest) (context : Context) :
  let entries := default [] (schema_derived rest) in
  let landmarks := default [] (landmarks (ctx_raw context)) in
  (has_landmarks (ctx_raw context) = false ->
   ExtractProcessor_process table schema rest context = Some context) /\
  (has_landmarks (ctx_raw context) = true ->
   (forall context',
      ExtractProcessor_process table schema rest context = Some context' ->
      with_derived context' (ctx_derived context) = context /\
      forall k v, ctx_derived context' !! k = Some v ->
        exists def, (k, def) ∈ entries /\
                    computeDerived table landmarks def schema = Some (Some v)) /\
   (forall entry, entry ∈ entries ->
      computeDerived table landmarks (snd entry) schema = None ->
      ExtractProcessor_process table schema rest context = None)).
Proof.
  cbv zeta. unfold ExtractProcessor_process. split; [intros ->; reflexivity|].
  intros ->. cbn [negb]. split.
  - intros context' H.
    destruct (foldl _ (Some ∅) _) as [derived|] eqn:Hfold; [|discriminate].
    cbn [mbind option_bind] in H. injection H as <-.
    split; [destruct context; reflexivity|].
    intros k v Hk. cbn [ctx_derived with_derived] in Hk.
    destruct (foldl_extract_sound _ _ _ _ _ _ Hfold k v Hk) as [Hempty | Hdef].
    + rewrite lookup_empty in Hempty. discriminate.
    + exact Hdef.
  - intros entry Hin Hthrow.
    rewrite (foldl_extract_throws _ _ _ _ _ entry Hin Hthrow). reflexivity.
Qed.










Lemma clamp_to_outputMax (M : Q) (v : num) :
  0 <= M ->
  Math_min (Fin M) (Math_max (Fin 0) v) = NaN \/
  within 0 M (Math_min (Fin M) (Math_max (Fin 0) v)).
Proof.
  intros HM. destruct v as [q| | |]; cbn [Math_max ltb].
  - right. destruct (Qltb 0 q) eqn:E0; cbn [Math_min ltb].
    + apply Qltb_lt in E0. destruct (Qltb q M) eqn:E1; cbn [within].
      * apply Qltb_lt in E1. lra.
      * lra.
    + destruct (Qltb 0 M) eqn:E1; cbn [within].
      * apply Qltb_lt in E1. lra.
      * apply Qltb_ge in E1. lra.
  - right. cbn [Math_min ltb within]. lra.
  - right. cbn [Math_min ltb]. destruct (Qltb 0 M) eqn:E1; cbn [within].
    + apply Qltb_lt in E1. lra.
    + apply Qltb_ge in E1. lra.
  - left. reflexivity.
Qed.

(** X11. A normalised distance with a finite, non-negative [outputMax] lies
    in [0, outputMax], whatever the landmarks and the bounds [min] and [max]
    are; it is NaN at worst. *)
Theorem distance_within_outputMax (Math_sqrt : num -> num) (landmarks : list Point.t)
    (config : DistanceConfig) (schema : Schema) (normalize : Normalize) (M : Q)
    (d : num) :
  dist_normalize config = Some normalize ->
  or_else (outputMax normalize) (Fin 1) = Fin M ->
  0 <= M ->
  distance Math_sqrt landmarks config schema = Some d ->
  d = NaN \/ within 0 M d.
Proof.
  intros Hn HM Hpos Hd.
  destruct (distance_normalized Math_sqrt landmarks config schema normalize d Hn Hd)
    as (raw & ->).
  unfold spec_normalize. rewrite HM. apply clamp_to_outputMax. exact Hpos.
Qed.

(** The pinch of the sample frame, with the rounding-down square root. *)
Lemma distance_within_outputMax_witness :
  exists d, distance sqrt_down sample_landmarks pinch_distance _getDefaultSchema = Some d /\
            (d = NaN \/ within 0 1 d).
Proof.
  eexists. split; [vm_compute; reflexivity|].
  apply (distance_within_outputMax sqrt_down sample_landmarks pinch_distance
           _getDefaultSchema {| norm_min := Fin 0.02; norm_max := Fin 0.2;
                                outputMax := None |} 1).
  - reflexivity.
  - reflexivity.
  - lra.
  - vm_compute. reflexivity.
Defined.

Lemma sqrt_down_zero (q : Q) :
  q == 0 -> is_strictly_zero (sqrt_down (Fin q)) = true.
Proof.
  intros Hq. unfold sqrt_down.
  assert (Hnum : Qnum q = 0%Z).
  { unfold Qeq in Hq. cbn in Hq. lia. }
  destruct (Qltb q 0) eqn:E.
  - apply Qltb_lt in E. lra.
  - cbn [is_strictly_zero]. rewrite Hnum. reflexivity.
Qed.

(** X12. The dot product is 0, not the NaN of 0/0, when its first vector
    starts and ends at the same landmark with finite coordinates, provided
    the second vector's landmarks are there and the square root of 0 is 0. *)
Theorem dotProduct_zero_vector (Math_sqrt : num -> num) (landmarks : list Point.t)
    (config : DeriveDef) (schema : Schema) (lm : Point.t) :
  (forall q, q == 0 -> is_strictly_zero (Math_sqrt (Fin q)) = true) ->
  def_to1 config = def_from1 config ->
  mjoin (landmark_at landmarks schema (key_of (def_from1 config))) = Some lm ->
  finite_point lm ->
  is_Some (mjoin (landmark_at landmarks schema (key_of (def_from2 config)))) ->
  is_Some (mjoin (landmark_at landmarks schema (key_of (def_to2 config)))) ->
  dotProduct Math_sqrt landmarks config schema = Some (VNum (Fin 0)).
Proof.
  intros Hsqrt Hsame Hlm (x & y & Hx & Hy) [from2 Hfrom2] [to2 Hto2].
  unfold dotProduct. rewrite Hsame, Hlm, Hfrom2, Hto2.
  cbn [mbind option_bind]. rewrite Hx, Hy. cbn [sub neg add mul].
  rewrite Hsqrt; [reflexivity|]. ring.
Qed.

(** A vector from the wrist to the wrist of the sample frame. *)
Lemma dotProduct_zero_vector_witness :
  dotProduct sqrt_down sample_landmarks degenerate_dot _getDefaultSchema
  = Some (VNum (Fin 0)).
Proof.
  apply (dotProduct_zero_vector sqrt_down sample_landmarks degenerate_dot
           _getDefaultSchema (sample_point 0.5 0.5) sqrt_down_zero eq_refl).
  - vm_compute. reflexivity.
  - eexists. eexists. split; reflexivity.
  - eexists. vm_compute. reflexivity.
  - eexists. vm_compute. reflexivity.
Defined.

Lemma foldl_build_stage (registry : gmap string ProcessorClass) (schema : Schema)
    (rest : SchemaRest) (stages : list StageDef) (processors : list Processor) :
  foldl (build_stage registry schema rest) processors stages
  = processors ++ omap (stage_instance registry schema rest) stages.
Proof.
  revert processors. induction stages as [|stage stages IH]; intros processors.
  - cbn. rewrite app_nil_r. reflexivity.
  - cbn [foldl omap list_omap]. rewrite IH. unfold build_stage, stage_instance.
    destruct (registry !! stage_processor stage) as [class|]; cbn [fmap option_fmap option_map].
    + rewrite <- app_assoc. reflexivity.
    + reflexivity.
Qed.

(** X13. The pipeline built from a schema holds, in the schema's order, one
    processor for each stage whose name the registry knows, constructed from
    the stage's config (the empty one when it has none): stages of unknown
    name are dropped without disturbing the others, and the pipeline has as
    many processors as the schema has stages of known name. *)
Theorem buildFromSchema_skips_unknown (registry : gmap string ProcessorClass)
    (schema : Schema) (rest : SchemaRest) :
  let stages := default [] (schema_pipeline rest) in
  let known := List.filter (fun stage =>
                 bool_decide (is_Some (registry !! stage_processor stage))) stages in
  _buildFromSchema registry schema rest
    = omap (stage_instance registry schema rest) known /\
  length (_buildFromSchema registry schema rest) = length known /\
  Forall2 (fun processor stage =>
             exists class, registry !! stage_processor stage = Some class /\
                           processor = class (default ∅ (stage_config stage)) schema rest)
          (_buildFromSchema registry schema rest) known.
Proof.
  cbn zeta. unfold _buildFromSchema. rewrite !foldl_build_stage. cbn [app].
  generalize (default [] (schema_pipeline rest)) as stages.
  intros stages.
  induction stages as [|stage stages (IHeq & IHlen & IHall)].
  - split; [reflexivity|]. split; [reflexivity|]. constructor.
  - cbn [omap list_omap List.filter].
    destruct (registry !! stage_processor stage) as [class|] eqn:Hclass.
    + assert (Hinst : stage_instance registry schema rest stage
                      = Some (class (default ∅ (stage_config stage)) schema rest))
        by (unfold stage_instance; rewrite Hclass; reflexivity).
      rewrite bool_decide_eq_true_2 by eauto.
      cbn [omap list_omap]. rewrite Hinst. cbn [length].
      split; [f_equal; exact IHeq|]. split; [f_equal; exact IHlen|].
      constructor; [eauto | exact IHall].
    + assert (Hinst : stage_instance registry schema rest stage = None)
        by (unfold stage_instance; rewrite Hclass; reflexivity).
      rewrite bool_decide_eq_false_2 by (intros [? ?]; discriminate).
      rewrite Hinst.
      split; [exact IHeq|]. split; [exact IHlen | exact IHall].
Qed.

(** X14. [insertProcessor] adds exactly one processor and keeps the others
    in order: at an index inside the list the new processor sits at that
    index, with the earlier processors before it and the later ones shifted
    by one; at a negative index or one that is not inside the list it goes
    to the end. *)
Theorem insertProcessor_places (processors : list Processor) (processor : Processor)
    (index : Z) :
  let result := insertProcessor processors processor index in
  let position :=
    if ((0 <=? index) && (index <? Z.of_nat (length processors)))%Z
    then Z.to_nat index else length processors in
  length result = S (length processors) /\
  result !! position = Some processor /\
  (forall i, (i < position)%nat -> result !! i = processors !! i) /\
  (forall i, (position <= i)%nat -> result !! S i = processors !! i).
Proof.
  cbn zeta. unfold insertProcessor.
  destruct (index <? 0)%Z eqn:Hneg; cbn [orb].
  - apply Z.ltb_lt in Hneg.
    replace (0 <=? index)%Z with false by (symmetry; apply Z.leb_gt; lia).
    cbn [andb]. rewrite length_app. cbn [length].
    split; [lia|]. split; [apply list_lookup_middle; reflexivity|].
    split.
    + intros i Hi. apply lookup_app_l. exact Hi.
    + intros i Hi. rewrite lookup_ge_None_2 by (rewrite length_app; cbn [length]; lia).
      symmetry. apply lookup_ge_None_2. lia.
  - apply Z.ltb_ge in Hneg.
    replace (0 <=? index)%Z with true by (symmetry; apply Z.leb_le; lia).
    cbn [andb]. destruct (Z.of_nat (length processors) <=? index)%Z eqn:Hout.
    + apply Z.leb_le in Hout.
      replace (index <? Z.of_nat (length processors))%Z with false
        by (symmetry; apply Z.ltb_ge; lia).
      rewrite length_app. cbn [length].
      split; [lia|]. split; [apply list_lookup_middle; reflexivity|].
      split.
      * intros i Hi. apply lookup_app_l. exact Hi.
      * intros i Hi. rewrite lookup_ge_None_2 by (rewrite length_app; cbn [length]; lia).
        symmetry. apply lookup_ge_None_2. lia.
    + apply Z.leb_gt in Hout.
      replace (index <? Z.of_nat (length processors))%Z with true
        by (symmetry; apply Z.ltb_lt; lia).
      assert (Hn : (Z.to_nat index < length processors)%nat) by lia.
      set (n := Z.to_nat index) in *.
      assert (Htake : length (take n processors) = n)
        by (rewrite length_take; lia).
      split; [|split; [|split]].
      * rewrite length_app. cbn [length]. rewrite Htake, length_drop. lia.
      * apply list_lookup_middle. symmetry. exact Htake.
      * intros i Hi. rewrite lookup_app_l by lia. apply lookup_take_lt. exact Hi.
      * intros i Hi. rewrite lookup_app_r by lia. rewrite Htake.
        replace (S i - n)%nat with (S (i - n)) by lia.
        change ((processor :: drop n processors) !! S (i - n))
          with (drop n processors !! (i - n)%nat).
        rewrite lookup_drop. f_equal. lia.
Qed.

Lemma getProcessor_None (processors : list Processor) (name : string) :
  getProcessor processors name = None <-> name ∉ proc_name <$> processors.
Proof.
  unfold getProcessor. induction processors as [|p processors IH]; cbn [List.find fmap list_fmap].
  - split; [intros _ H; inversion H | reflexivity].
  - destruct (String.eqb (proc_name p) name) eqn:E.
    + apply String.eqb_eq in E. split; [discriminate|].
      intros H. exfalso. apply H. rewrite E. apply elem_of_cons. left. reflexivity.
    + apply String.eqb_neq in E. rewrite IH. rewrite not_elem_of_cons.
      split; [intros H; split; [congruence | exact H] | intros [_ H]; exact H].
Qed.

Lemma getProcessor_filter (processors : list Processor) (keep : Processor -> bool)
    (name : string) :
  (forall p, proc_name p = name -> keep p = true) ->
  getProcessor (List.filter keep processors) name = getProcessor processors name.
Proof.
  intros Hkeep. unfold getProcessor.
  induction processors as [|p processors IH]; cbn [List.filter List.find]; [reflexivity|].
  destruct (String.eqb (proc_name p) name) eqn:E.
  - rewrite (Hkeep p) by (apply String.eqb_eq; exact E).
    cbn [List.find]. rewrite E. reflexivity.
  - destruct (keep p); cbn [List.find]; [rewrite E|]; exact IH.
Qed.

(** X15. After [removeProcessor(name)] no processor of that name is found,
    however many there were, while [getProcessor] answers for every other
    name as before; and removing a name the pipeline does not hold leaves
    the pipeline as it is. *)
Theorem removeProcessor_by_name (processors : list Processor) (name : string) :
  let result := removeProcessor processors (inl name) in
  getProcessor result name = None /\
  (forall other, other <> name ->
     getProcessor result other = getProcessor processors other) /\
  (getProcessor processors name = None -> result = processors).
Proof.
  cbn zeta. unfold removeProcessor. split; [|split].
  - apply getProcessor_None. intros Hin.
    apply list_elem_of_fmap in Hin as (p & Hname & Hp).
    apply list_elem_of_In, List.filter_In in Hp as [_ Hp].
    apply negb_true_iff, String.eqb_neq in Hp. congruence.
  - intros other Hother. apply getProcessor_filter.
    intros p Hp. apply negb_true_iff, String.eqb_neq. congruence.
  - intros Hnone. apply getProcessor_None in Hnone.
    induction processors as [|p processors IH]; cbn [List.filter]; [reflexivity|].
    cbn [fmap list_fmap] in Hnone. apply not_elem_of_cons in Hnone as [Hp Hrest].
    replace (String.eqb (proc_name p) name) with false
      by (symmetry; apply String.eqb_neq; congruence).
    cbn [negb]. f_equal. apply IH. exact Hrest.
Qed.

Lemma foldl_insertProcessor_end (processors : list Processor)
    (customProcessors : list (Processor * Z)) :
  Forall (fun item => (snd item < 0)%Z) customProcessors ->
  foldl (fun processors item => insertProcessor processors (fst item) (snd item))
        processors customProcessors
  = processors ++ (fst <$> customProcessors).
Proof.
  intros Hall. revert processors.
  induction Hall as [|item items Hitem _ IH]; intros processors.
  - cbn. rewrite app_nil_r. reflexivity.
  - cbn [foldl fmap list_fmap]. rewrite IH. unfold insertProcessor.
    replace (snd item <? 0)%Z with true by (symmetry; apply Z.ltb_lt; exact Hitem).
    cbn [orb]. rewrite <- app_assoc. reflexivity.
Qed.

(** X16. Custom processors given with a negative position (the documented
    -1 for 'end') run after the schema's own stages, in the order they were
    listed; the adapter starts stopped, with its counters at zero. *)
Theorem constructor_appends_custom (registry : gmap string ProcessorClass)
    (schema : Schema) (rest : SchemaRest) (sinks : list Sink)
    (calibration : option Calibration) (customProcessors : list (Processor * Z)) :
  Forall (fun item => (snd item < 0)%Z) customProcessors ->
  let a := PaddleVisionAdapter_new registry schema rest sinks calibration customProcessors in
  pipeline a = _buildFromSchema registry schema rest ++ (fst <$> customProcessors) /\
  isRunning a = false /\
  framesProcessed (_stats a) = 0%nat /\ detectedFrames (_stats a) = 0%nat.
Proof.
  intros Hall. cbn zeta. unfold PaddleVisionAdapter_new, new_adapter, isRunning.
  cbn [pipeline _running _stats framesProcessed detectedFrames].
  rewrite foldl_insertProcessor_end by exact Hall.
  repeat split.
Qed.

(** The default pipeline with the base processor appended. *)
Lemma constructor_appends_custom_witness :
  pipeline custom_adapter
    = _buildFromSchema (PROCESSOR_REGISTRY ∅) _getDefaultSchema sample_rest
      ++ [BaseProcessor] /\
  isRunning custom_adapter = false /\
  framesProcessed (_stats custom_adapter) = 0%nat /\
  detectedFrames (_stats custom_adapter) = 0%nat.
Proof.
  apply (constructor_appends_custom (PROCESSOR_REGISTRY ∅) _getDefaultSchema sample_rest
           [sample_sink] None [(BaseProcessor, (-1)%Z)]).
  repeat constructor.
Defined.

(** X17. [stop] after [start] leaves the adapter stopped with its counters,
    pipeline and calibration untouched and every sink's log as it was.  When
    the adapter ran or the source started, all sinks end disconnected; when
    the source failed to start on a stopped adapter, [stop] does nothing and
    the sinks stay as [connect] left them. *)
Theorem stop_after_start (a : Adapter) (source_started : bool) :
  let a' := stop (start a source_started) in
  isRunning a' = false /\
  _stats a' = _stats a /\ pipeline a' = pipeline a /\
  calibration a' = calibration a /\ schema a' = schema a /\
  emitted <$> sinks a' = emitted <$> sinks a /\
  (_running a || source_started = true ->
   Forall (fun sink => _connected sink = false) (sinks a')) /\
  (_running a = false -> source_started = false ->
   sinks a' = sink_connect <$> sinks a).
Proof.
  cbn zeta. unfold stop, start, isRunning.
  destruct (_running a) eqn:Hrun.
  - rewrite Hrun. cbn [negb with_sinks_running _running _stats pipeline calibration schema sinks].
    repeat apply conj; try reflexivity.
    + rewrite <- list_fmap_compose. apply list_fmap_ext. intros _ sink _. reflexivity.
    + intros _. apply Forall_fmap, Forall_true. intros sink. reflexivity.
    + discriminate.
  - destruct source_started;
      cbn [negb with_sinks_running _running _stats pipeline calibration schema sinks].
    + repeat apply conj; try reflexivity.
      * rewrite <- !list_fmap_compose. apply list_fmap_ext. intros _ sink _. reflexivity.
      * intros _. apply Forall_fmap, Forall_true. intros sink. reflexivity.
      * discriminate.
    + repeat apply conj; try reflexivity.
      * rewrite <- list_fmap_compose. apply list_fmap_ext. intros _ sink _. reflexivity.
      * discriminate.
Qed.

Lemma run_app (a : Adapter) (ops1 ops2 : list Op) :
  run a (ops1 ++ ops2) = run (run a ops1) ops2.
Proof. unfold run. apply foldl_app. Qed.

Lemma processFrame_running (a : Adapter) (data : Frame) :
  _running (fst (_processFrame a data)) = _running a.
Proof.
  unfold _processFrame. destruct (negb (has_landmarks data)); [reflexivity|].
  destruct (pipeline_process _ _ _ _) as [[context processors] calls].
  destruct (_emitOutputs _ _ _) as [context' sinks']. reflexivity.
Qed.

Lemma processFrame_timestamp (a : Adapter) (data : Frame) :
  lastTimestamp (_stats (fst (_processFrame a data))) = timestamp data.
Proof.
  unfold _processFrame. destruct (negb (has_landmarks data)); [reflexivity|].
  destruct (pipeline_process _ _ _ _) as [[context processors] calls].
  destruct (_emitOutputs _ _ _) as [context' sinks']. reflexivity.
Qed.

(** X18. While the adapter runs, a sequence of frames adds its length to
    [framesProcessed] and the number of its frames with 21 landmarks or more
    to [detectedFrames], leaves the adapter running and records the last
    frame's timestamp. *)
Theorem frames_are_counted (a : Adapter) (frames : list Frame) :
  _running a = true ->
  let a' := run a (OpFrame <$> frames) in
  framesProcessed (_stats a') = (framesProcessed (_stats a) + length frames)%nat /\
  detectedFrames (_stats a')
    = (detectedFrames (_stats a) + length (List.filter has_landmarks frames))%nat /\
  lastTimestamp (_stats a')
    = default (lastTimestamp (_stats a)) (timestamp <$> last frames) /\
  _running a' = true.
Proof.
  intros Hrun. cbn zeta.
  induction frames as [|data frames (IHf & IHd & IHt & IHr)] using rev_ind.
  - cbn. repeat split; try lia. exact Hrun.
  - rewrite fmap_app, run_app. cbn [fmap list_fmap run foldl step].
    fold (run a (OpFrame <$> frames)). rewrite IHr.
    rewrite processFrame_running, processFrame_timestamp, last_snoc.
    rewrite List.filter_app, !length_app. cbn [List.filter length fmap option_fmap option_map default].
    split; [|split; [|split; [reflexivity | exact IHr]]].
    + destruct (has_landmarks data) eqn:Hl.
      * destruct (processFrame_detected (run a (OpFrame <$> frames)) data Hl) as (-> & _).
        lia.
      * unfold _processFrame. rewrite Hl. cbn. lia.
    + destruct (has_landmarks data) eqn:Hl.
      * destruct (processFrame_detected (run a (OpFrame <$> frames)) data Hl) as (_ & -> & _).
        cbn [length]. lia.
      * unfold _processFrame. rewrite Hl. cbn. lia.
Qed.

(** Three frames, the middle one without a hand. *)
Lemma frames_are_counted_witness :
  framesProcessed (_stats counted_adapter) = 3%nat /\
  detectedFrames (_stats counted_adapter) = 2%nat /\
  lastTimestamp (_stats counted_adapter) = timestamp sample_frame /\
  _running counted_adapter = true.
Proof.
  exact (frames_are_counted running_adapter [sample_frame; empty_frame; sample_frame]
           eq_refl).
Defined.

(** X19. Whatever the pattern, the clock, the random numbers and the host's
    sine and cosine, a frame of the mock source carries exactly 21 landmarks,
    all with [z] 0, and advances the source's clock by 0.05; a running
    adapter therefore counts every mock frame as detected. *)
Theorem mock_frames_are_detected (Math_sin Math_cos : num -> num) (pattern : string)
    (t now : num) (random : num * num * num) (a : Adapter) :
  let generated := _generateFrame Math_sin Math_cos pattern t now random in
  let frame := snd generated in
  fst generated = add t (Fin 0.05) /\
  timestamp frame = now /\
  (exists points, landmarks frame = Some points /\ length points = 21%nat /\
                  Forall (fun lm => Point.z lm = Some (Fin 0)) points) /\
  has_landmarks frame = true /\
  (_running a = true ->
   detectedFrames (_stats (step a (OpFrame frame))) = S (detectedFrames (_stats a)) /\
   framesProcessed (_stats (step a (OpFrame frame))) = S (framesProcessed (_stats a))).
Proof.
  cbn zeta. unfold _generateFrame. cbn [fst snd].
  set (points := _generateLandmarks Math_sin Math_cos pattern (add t (Fin 0.05)) random).
  assert (Hlen : length points = 21%nat).
  { unfold points, _generateLandmarks.
    destruct (if String.eqb pattern "sine" then _ else _) as [[baseX baseY] rotation].
    rewrite length_fmap, length_seq. reflexivity. }
  assert (Hz : Forall (fun lm => Point.z lm = Some (Fin 0)) points).
  { unfold points, _generateLandmarks.
    destruct (if String.eqb pattern "sine" then _ else _) as [[baseX baseY] rotation].
    apply Forall_fmap, Forall_true. intros i. reflexivity. }
  assert (Hhas : has_landmarks {| landmarks := Some points; timestamp := now |} = true).
  { unfold has_landmarks. cbn [landmarks]. rewrite Hlen. reflexivity. }
  split; [reflexivity|]. split; [reflexivity|].
  split; [exists points; repeat split; assumption|].
  split; [exact Hhas|].
  intros Hrun. cbn [step]. rewrite Hrun.
  destruct (processFrame_detected a _ Hhas) as (Hf & Hd & _). split; assumption.
Qed.

(** X20. On an adapter whose calibration is the schema's own object (none
    was given at construction), [setTuning] changes the schema's defaults
    too, so that [resetTuning] afterwards restores nothing: the adapter stays
    exactly as [setTuning] left it. *)
Theorem resetTuning_after_shared_setTuning (a : Adapter) (partial : PartialTuning) :
  calibration_is_schema a = true ->
  schema_calibration (schema a) = Some (calibration a) ->
  resetTuning (setTuning a partial) = Some (setTuning a partial) /\
  getTuning (setTuning a partial) = assign_tuning (tuning (calibration a)) partial.
Proof.
  intros Hshared _. destruct a as [sch snk cal is_schema ref_is_schema procs stats running].
  cbn in Hshared. subst is_schema. split; reflexivity.
Qed.

(** The adapter built without a calibration of its own, its direction
    reversed. *)
Lemma resetTuning_after_shared_setTuning_witness :
  resetTuning (setTuning sample_adapter reverse_tuning)
    = Some (setTuning sample_adapter reverse_tuning) /\
  getTuning (setTuning sample_adapter reverse_tuning)
    = assign_tuning (tuning (calibration sample_adapter)) reverse_tuning.
Proof.
  exact (resetTuning_after_shared_setTuning sample_adapter reverse_tuning eq_refl eq_refl).
Defined.

(** X21. On an adapter with a calibration object of its own, [setTuning]
    leaves the schema alone and merges the given keys over the current
    tuning, and [resetTuning] afterwards brings the schema's tuning back,
    whatever was set; the reference points are not touched by either. *)
Theorem resetTuning_restores_schema_tuning (a : Adapter) (partial : PartialTuning)
    (schema_cal : Calibration) :
  calibration_is_schema a = false ->
  schema_calibration (schema a) = Some schema_cal ->
  schema (setTuning a partial) = schema a /\
  reference (calibration (setTuning a partial)) = reference (calibration a) /\
  exists a',
    resetTuning (setTuning a partial) = Some a' /\
    getTuning a' = default empty_tuning (tuning schema_cal) /\
    schema a' = schema a /\
    reference (calibration a') = reference (calibration a).
Proof.
  intros Hown Hcal. destruct a as [sch snk cal is_schema ref_is_schema procs stats running].
  cbn in Hown, Hcal. subst is_schema.
  split; [reflexivity|]. split; [reflexivity|].
  unfold resetTuning, setTuning, assign_calibration_tuning.
  cbn [calibration_is_schema schema calibration]. rewrite Hcal.
  eexists. split; [reflexivity|]. repeat split.
Qed.

Lemma resetTuning_restores_schema_tuning_witness :
  schema (setTuning (adapter_with_reference (-0.5) 0.5 0) reverse_tuning)
    = schema (adapter_with_reference (-0.5) 0.5 0) /\
  reference (calibration (setTuning (adapter_with_reference (-0.5) 0.5 0) reverse_tuning))
    = reference (calibration (adapter_with_reference (-0.5) 0.5 0)) /\
  exists a',
    resetTuning (setTuning (adapter_with_reference (-0.5) 0.5 0) reverse_tuning) = Some a' /\
    getTuning a' = default empty_tuning (tuning default_calibration) /\
    schema a' = schema (adapter_with_reference (-0.5) 0.5 0) /\
    reference (calibration a') = reference (calibration (adapter_with_reference (-0.5) 0.5 0)).
Proof.
  exact (resetTuning_restores_schema_tuning (adapter_with_reference (-0.5) 0.5 0)
           reverse_tuning default_calibration eq_refl eq_refl).
Defined.

(** X22. Whether a captured reference point survives [setCalibration] with a
    profile that has no [reference] depends on the object it was written to:
    it is still there when the adapter's calibration was the schema's own
    object, and it is gone, the schema's reference being back, when the
    adapter had a calibration and a reference object of its own. *)
Theorem captured_point_after_setCalibration (a a' : Adapter) (point : RefName)
    (rec : RefPoint) (profile : Profile) :
  captureReferencePoint a point = (Some rec, a') ->
  profile_reference profile = None ->
  (calibration_is_schema a = true ->
   reference_point (calibration (setCalibration a' profile)) point = Some rec) /\
  (calibration_is_schema a = false -> reference_is_schema a = false ->
   reference (calibration (setCalibration a' profile))
   = schema_calibration (schema a) ≫= reference).
Proof.
  intros Hcapture Hprofile. unfold captureReferencePoint in Hcapture.
  destruct (getProcessor (pipeline a) "SmoothProcessor") as [smoothProc|];
    [|discriminate].
  destruct (proc_state smoothProc !! "theta") as [theta|]; [|discriminate].
  destruct (negb (truthy theta)); [discriminate|].
  injection Hcapture as Hrec <-.
  unfold setCalibration, Object_assign, reference_point.
  cbn [calibration schema reference]. rewrite Hprofile. cbn [default].
  split.
  - intros Hshared. rewrite Hshared.
    cbn [with_schema_calibration schema_calibration default with_reference reference
         mbind option_bind].
    exact Hrec.
  - intros Hown Href. rewrite Hown, Href. cbn [andb].
    destruct (schema_calibration (schema a)); reflexivity.
Qed.

(** A centre captured at a rotation of 0.25 on the adapter built without a
    calibration of its own. *)
Lemma captured_point_after_setCalibration_witness :
  reference_point
    (calibration (setCalibration (snd (captureReferencePoint rotated_adapter Center))
                                 bare_profile)) Center
  = Some (captured (Fin 0.25)).
Proof.
  apply (captured_point_after_setCalibration rotated_adapter
           (snd (captureReferencePoint rotated_adapter Center)) Center
           (captured (Fin 0.25)) bare_profile).
  - apply injective_projections; [vm_compute; reflexivity | reflexivity].
  - reflexivity.
  - reflexivity.
Defined.

Lemma remove_first_snoc (callback : nat) (listeners : list nat) :
  remove_first callback (listeners ++ [callback])
  = if bool_decide (callback ∈ listeners)
    then remove_first callback listeners ++ [callback]
    else listeners.
Proof.
  induction listeners as [|l listeners IH].
  - cbn. rewrite Nat.eqb_refl. reflexivity.
  - cbn [app remove_first]. destruct (Nat.eqb l callback) eqn:E.
    + apply Nat.eqb_eq in E. subst l.
      rewrite bool_decide_eq_true_2 by (apply elem_of_cons; left; reflexivity).
      reflexivity.
    + apply Nat.eqb_neq in E. rewrite IH.
      destruct (bool_decide (callback ∈ listeners)) eqn:Hin.
      * apply bool_decide_eq_true in Hin.
        rewrite bool_decide_eq_true_2 by (apply elem_of_cons; right; exact Hin).
        reflexivity.
      * apply bool_decide_eq_false in Hin.
        rewrite bool_decide_eq_false_2; [reflexivity|].
        intros H. apply elem_of_cons in H as [H | H]; [congruence | contradiction].
Qed.

Lemma remove_first_length (callback : nat) (listeners : list nat) :
  callback ∈ listeners ->
  S (length (remove_first callback listeners)) = length listeners.
Proof.
  induction listeners as [|l listeners IH]; intros Hin; [inversion Hin|].
  cbn [remove_first]. destruct (Nat.eqb l callback) eqn:E; [reflexivity|].
  apply Nat.eqb_neq in E. cbn [length]. f_equal. apply IH.
  apply elem_of_cons in Hin as [Hin | Hin]; [congruence | exact Hin].
Qed.

Lemma remove_first_others (callback : nat) (listeners : list nat) :
  List.filter (fun l => negb (Nat.eqb l callback)) (remove_first callback listeners)
  = List.filter (fun l => negb (Nat.eqb l callback)) listeners.
Proof.
  induction listeners as [|l listeners IH]; [reflexivity|].
  cbn [remove_first List.filter]. destruct (Nat.eqb l callback) eqn:E; cbn [negb].
  - reflexivity.
  - cbn [List.filter]. rewrite E. cbn [negb]. f_equal. exact IH.
Qed.

(** X23. Calling the function [onData] returned takes out one registration
    of the callback: the number of listeners is back to what it was, and the
    other callbacks keep their places.  It restores the listeners exactly when
    the callback was not registered before; when it was, the earlier
    registration goes and the new one stays at the end. *)
Theorem unsubscribe_after_onData (source : SourceAdapter) (callback : nat) :
  let source' := unsubscribe (onData source callback) callback in
  length (_listeners source') = length (_listeners source) /\
  List.filter (fun l => negb (Nat.eqb l callback)) (_listeners source')
  = List.filter (fun l => negb (Nat.eqb l callback)) (_listeners source) /\
  (callback ∉ _listeners source -> source' = source) /\
  (callback ∈ _listeners source ->
   _listeners source' = remove_first callback (_listeners source) ++ [callback]).
Proof.
  cbn zeta. unfold unsubscribe, onData. cbn [_listeners source_running].
  rewrite remove_first_snoc. destruct source as [listeners running].
  cbn [_listeners source_running].
  destruct (bool_decide (callback ∈ listeners)) eqn:Hin.
  - apply bool_decide_eq_true in Hin. repeat apply conj.
    + rewrite length_app. cbn [length].
      rewrite <- (remove_first_length callback listeners Hin). lia.
    + rewrite List.filter_app, remove_first_others. cbn [List.filter].
      rewrite Nat.eqb_refl. cbn [negb]. apply app_nil_r.
    + intros Hnot. contradiction.
    + intros _. reflexivity.
  - apply bool_decide_eq_false in Hin. repeat apply conj; try reflexivity.
    intros Hyes. contradiction.
Qed.

Lemma console_run_cons (sink : ConsoleSink) (topic : string)
    (call : num * string * num) (calls : list (num * string * num)) :
  console_run sink topic (call :: calls)
  = let '(sink', line) :=
      ConsoleSink_emit sink (fst (fst call)) (snd (fst call)) (snd call) topic in
    (fst (console_run sink' topic calls),
     option_list line ++ snd (console_run sink' topic calls)).
Proof.
  unfold console_run. cbn [foldl fst snd app].
  destruct (ConsoleSink_emit sink _ _ _ topic) as [sink' line].
  generalize (option_list line) as acc. revert sink'.
  induction calls as [|c calls IH]; intros sink' acc.
  - cbn. rewrite app_nil_r. reflexivity.
  - cbn [foldl fst snd app].
    destruct (ConsoleSink_emit sink' _ _ _ topic) as [sink'' line'].
    rewrite (IH sink'' (acc ++ option_list line')).
    rewrite (IH sink'' (option_list line')).
    cbn [fst snd]. rewrite app_assoc. reflexivity.
Qed.

Lemma well_spaced_ext (T : Q) (last last' : string -> Q) (lines : list ConsoleLine) :
  (forall c, last c == last' c) ->
  well_spaced T last lines -> well_spaced T last' lines.
Proof.
  revert last last'. induction lines as [|line lines IH]; intros last last' Heq;
    [trivial|].
  cbn [well_spaced]. intros (t & Ht & HT & Hrest).
  exists t. split; [exact Ht|]. split; [rewrite <- (Heq (line_control line)); exact HT|].
  apply (IH (fun c => if String.eqb c (line_control line) then t else last c));
    [|exact Hrest].
  intros c. destruct (String.eqb c (line_control line)); [reflexivity | apply Heq].
Qed.

Lemma console_run_spaced (T : Q) (topic : string) (calls : list (num * string * num)) :
  Forall (fun call => exists t, fst (fst call) = Fin t) calls ->
  forall (sink : ConsoleSink) (last : string -> Q),
    throttle sink = Fin T ->
    (forall c, exists t, lastTime_of sink c = Fin t /\ t == last c) ->
    well_spaced T last (snd (console_run sink topic calls)).
Proof.
  induction 1 as [|[[now control] value] calls (t & Hnow) _ IH];
    intros sink last HT Hlast; [exact I|].
  cbn [fst snd] in Hnow. subst now.
  rewrite console_run_cons. cbn [fst snd]. unfold ConsoleSink_emit.
  fold (lastTime_of sink control).
  destruct (Hlast control) as (t0 & Ht0 & Hlast0). rewrite Ht0, HT.
  cbn [sub neg add ltb].
  destruct (Qltb (t + - t0) T) eqn:E; cbn [snd option_list app].
  - apply IH; assumption.
  - apply Qltb_ge in E. cbn [option_list app well_spaced line_time line_control].
    exists t. split; [reflexivity|]. split; [rewrite <- Hlast0; lra|].
    apply IH; [reflexivity|].
    intros c. unfold lastTime_of. cbn [_lastLog line_control].
    destruct (String.eqb c control) eqn:Ec.
    + apply String.eqb_eq in Ec. subst c. rewrite lookup_insert_eq.
      cbn [or_else truthy]. destruct (is_zero t) eqn:Hz; cbn [negb].
      * exists 0. split; [reflexivity|]. apply is_zero_true in Hz. symmetry. exact Hz.
      * exists t. split; reflexivity.
    + apply String.eqb_neq in Ec. rewrite lookup_insert_ne by congruence.
      apply Hlast.
Qed.

(** X24. The lines a console sink logs are spaced by its throttle, control
    by control: each comes at least [throttle] after the previous line of
    the same control, and the first line of a control only once the clock
    has reached [throttle].  The throttle is the option given, or 100 when
    the option is missing or 0; the clock readings are finite. *)
Theorem console_lines_are_spaced (throttle_option : option num) (T : Q)
    (topic : string) (calls : list (num * string * num)) :
  or_else throttle_option (Fin 100) = Fin T ->
  Forall (fun call => exists t, fst (fst call) = Fin t) calls ->
  well_spaced T (fun _ => 0)
    (snd (console_run (new_ConsoleSink throttle_option) topic calls)).
Proof.
  intros HT Hcalls. apply console_run_spaced; [exact Hcalls | exact HT |].
  intros c. exists 0. split; [|reflexivity].
  unfold lastTime_of, new_ConsoleSink. cbn [_lastLog]. rewrite lookup_empty. reflexivity.
Qed.

(** Four calls 50, 120, 150 and 230 ms after the page loaded, with the
    default throttle. *)
Lemma console_lines_are_spaced_witness :
  well_spaced 100 (fun _ => 0)
    (snd (console_run (new_ConsoleSink None) "hand" sample_console_calls)).
Proof.
  apply (console_lines_are_spaced None 100 "hand" sample_console_calls eq_refl).
  repeat constructor; eexists; reflexivity.
Defined.

(** X25. A SmoothProcessor publishes its state under the state's own keys
    ([x], [y], [theta], [spread]) and replaces [smoothed] with nothing else.
    An output whose source is not one of these keys is therefore resolved
    from [calibrated] and [derived] exactly as if no smoothing had run. *)
Theorem smoothing_bypassed_by_outputs (config : SmoothConfig) (st : gmap string num)
    (context : Context) (out : OutputConfig) :
  st !! source out = None ->
  source out ∉ ["x"; "y"; "theta"; "spread"] ->
  ctx_smoothed (fst (SmoothProcessor_process config st context)) !! source out = None /\
  _resolveOutput (fst (SmoothProcessor_process config st context)) out
  = _resolveOutput (with_smoothed context ∅) out.
Proof.
  intros Hst Hsource.
  assert (Hx : source out <> "x") by (intros E; apply Hsource; rewrite E; set_solver).
  assert (Hy : source out <> "y") by (intros E; apply Hsource; rewrite E; set_solver).
  assert (Ht : source out <> "theta") by (intros E; apply Hsource; rewrite E; set_solver).
  assert (Hs : source out <> "spread") by (intros E; apply Hsource; rewrite E; set_solver).
  assert (Hnone : ctx_smoothed (fst (SmoothProcessor_process config st context))
                    !! source out = None).
  { unfold SmoothProcessor_process. cbn [fst with_smoothed ctx_smoothed].
    rewrite lookup_fmap, !lookup_insert_ne by congruence. rewrite Hst. reflexivity. }
  split; [exact Hnone|].
  unfold _resolveOutput. rewrite Hnone.
  unfold SmoothProcessor_process.
  cbn [fst with_smoothed ctx_smoothed ctx_calibrated ctx_derived].
  rewrite lookup_empty. reflexivity.
Qed.

(** The 'hand-theta' output of the default schema, on a fresh processor. *)
Lemma smoothing_bypassed_by_outputs_witness :
  ctx_smoothed (fst (SmoothProcessor_process default_smooth_config smooth_initial_state
                       sample_context))
    !! source hand_theta_output = None /\
  _resolveOutput (fst (SmoothProcessor_process default_smooth_config smooth_initial_state
                         sample_context)) hand_theta_output
  = _resolveOutput (with_smoothed sample_context ∅) hand_theta_output.
Proof.
  apply (smoothing_bypassed_by_outputs default_smooth_config smooth_initial_state
           sample_context hand_theta_output).
  - reflexivity.
  - intros H.
    repeat (apply elem_of_cons in H as [H | H]; [discriminate H|]).
    inversion H.
Defined.

Lemma run_processors_names (processors : list Processor) (context : Context) :
  proc_name <$> snd (fst (run_processors processors context)) = proc_name <$> processors.
Proof.
  induction processors as [|p processors IH] using rev_ind; [reflexivity|].
  rewrite run_processors_snoc.
  destruct (run_processors processors context) as [[context' done] calls].
  cbn [fst snd] in IH. unfold run_stage.
  destruct (proc_process p (proc_state p) context') as [result st].
  cbn [fst snd]. rewrite !fmap_app, IH. reflexivity.
Qed.

Lemma step_names (a : Adapter) (op : Op) :
  proc_name <$> pipeline (step a op) = proc_name <$> pipeline a.
Proof.
  destruct op as [started | data |]; cbn [step].
  - unfold start. destruct (_running a); [reflexivity|]. destruct started; reflexivity.
  - destruct (_running a); [|reflexivity]. unfold _processFrame.
    destruct (negb (has_landmarks data)); [reflexivity|].
    pose proof (run_processors_names (pipeline a)
                  (initial_context (schema a) data (Some (calibration a)))) as Hnames.
    unfold pipeline_process.
    destruct (run_processors _ _) as [[context processors] calls].
    destruct (_emitOutputs _ _ _) as [context' sinks']. exact Hnames.
  - unfold stop. destruct (negb (_running a)); reflexivity.
Qed.

Lemma run_names (ops : list Op) (a : Adapter) :
  proc_name <$> pipeline (run a ops) = proc_name <$> pipeline a.
Proof.
  revert a. induction ops as [|op ops IH]; intros a; [reflexivity|].
  cbn [run foldl]. fold (run (step a op) ops). rewrite IH. apply step_names.
Qed.

Lemma builtin_stage_name (table : gmap string Deriver) (schema : Schema)
    (rest : SchemaRest) (stage : StageDef) (processor : Processor) :
  stage_instance (PROCESSOR_REGISTRY table) schema rest stage = Some processor ->
  stage_processor stage <> "smooth" ->
  proc_name processor <> "SmoothProcessor".
Proof.
  unfold stage_instance, PROCESSOR_REGISTRY. intros Hinst Hstage.
  destruct (decide (stage_processor stage = "extract")) as [E | Ne].
  { rewrite E, lookup_insert_eq in Hinst. injection Hinst as <-. discriminate. }
  rewrite lookup_insert_ne in Hinst by congruence.
  destruct (decide (stage_processor stage = "calibrate")) as [E | Nc].
  { rewrite E, lookup_insert_eq in Hinst. injection Hinst as <-. discriminate. }
  rewrite lookup_insert_ne in Hinst by congruence.
  rewrite lookup_insert_ne in Hinst by congruence.
  destruct (decide (stage_processor stage = "flick-detect")) as [E | Nf].
  { rewrite E, lookup_singleton_eq in Hinst. injection Hinst as <-. discriminate. }
  rewrite lookup_singleton_ne in Hinst by congruence. discriminate.
Qed.

(** X26. An adapter whose schema pipeline names no 'smooth' stage, built
    with the built-in registry and no custom processors, never has a
    SmoothProcessor, whatever it is asked to do afterwards:
    [captureReferencePoint] returns null and leaves the adapter as it is, and
    [getValues] is the empty object. *)
Theorem capture_needs_smooth_stage (table : gmap string Deriver) (schema : Schema)
    (rest : SchemaRest) (sinks : list Sink) (calibration : option Calibration)
    (ops : list Op) (point : RefName) :
  Forall (fun stage => stage_processor stage <> "smooth")
         (default [] (schema_pipeline rest)) ->
  let a := run (PaddleVisionAdapter_new (PROCESSOR_REGISTRY table) schema rest sinks
                  calibration []) ops in
  captureReferencePoint a point = (None, a) /\ getValues a = ∅.
Proof.
  intros Hstages. cbn zeta.
  set (a := run _ ops).
  assert (Hnone : getProcessor (pipeline a) "SmoothProcessor" = None).
  { apply getProcessor_None. unfold a. rewrite run_names.
    unfold PaddleVisionAdapter_new, new_adapter. cbn [pipeline foldl].
    unfold _buildFromSchema. rewrite foldl_build_stage. cbn [app].
    induction Hstages as [|stage stages Hstage _ IH]; [intros H; inversion H|].
    cbn [omap list_omap].
    destruct (stage_instance (PROCESSOR_REGISTRY table) schema rest stage)
      as [processor|] eqn:Hinst; [|exact IH].
    cbn [fmap list_fmap]. apply not_elem_of_cons. split; [|exact IH].
    intros E. symmetry in E. revert E.
    apply (builtin_stage_name table schema rest stage processor Hinst Hstage). }
  unfold captureReferencePoint, getValues. rewrite Hnone. split; reflexivity.
Qed.

(** The pipeline that extracts and calibrates only, started and fed a frame. *)
Lemma capture_needs_smooth_stage_witness :
  captureReferencePoint unsmoothed_adapter Center = (None, unsmoothed_adapter) /\
  getValues unsmoothed_adapter = ∅.
Proof.
  apply (capture_needs_smooth_stage ∅ _getDefaultSchema unsmoothed_rest [sample_sink] None
           [OpStart true; OpFrame sample_frame] Center).
  repeat constructor; discriminate.
Defined.
